(** * Scheduling and prioritisation logic of the Smart Todo front end

    A shallow embedding of the client-side decision logic:
    - [aiSchedulingService] (getSchedulingSuggestions,
      generateLocalSchedulingSuggestions, getOptimizedSchedule),
    - [TimeBlockModal.handleSubmit],
    - [useTaskPrioritization.applyAIPrioritization],
    together with the properties of that code. *)

From Stdlib Require Import ZArith QArith List Lia Lqa String Ascii Sorting.Sorted Permutation.
From stdpp Require Import base gmap strings list pretty.

Import ListNotations.
Local Open Scope Z_scope.

(** ** JavaScript numbers

    The numbers the scheduling code computes with are whole: [Num z] is
    the double whose value is [z], and [NaN] the not-a-number value.  Whole
    numbers up to 2^53 in magnitude are doubles; the result of an operation
    that leaves this range is rounded to the nearest double, ties to the
    even mantissa.  The infinities are not represented: a magnitude beyond
    the doubles is kept as the whole number it is, which leaves every
    [Date] it enters invalid, as an infinity does. *)
Module JsNumber.

Inductive JsNumber : Type := Num (z : Z) | NaN.

(** The double nearest to a whole number. *)
Definition roundToDouble (x : Z) : Z :=
  let a := Z.abs x in
  if a <=? 2 ^ 53 then x
  else
    let e := Z.log2 a - 52 in
    let q := a / 2 ^ e in
    let r := a mod 2 ^ e in
    let half := 2 ^ (e - 1) in
    let q' := if r <? half then q
              else if half <? r then q + 1
              else if Z.even q then q else q + 1 in
    Z.sgn x * (q' * 2 ^ e).

(** [x + y]. *)
Definition add (x y : JsNumber) : JsNumber :=
  match x, y with
  | Num a, Num b => Num (roundToDouble (a + b))
  | _, _ => NaN
  end.

(** [x - y]. *)
Definition sub (x y : JsNumber) : JsNumber :=
  match x, y with
  | Num a, Num b => Num (roundToDouble (a - b))
  | _, _ => NaN
  end.

(** [x < y], [x >= y], [x <= y] and [x === y]: every comparison with
    [NaN] is false. *)
Definition ltb (x y : JsNumber) : bool :=
  match x, y with
  | Num a, Num b => a <? b
  | _, _ => false
  end.

Definition geb (x y : JsNumber) : bool :=
  match x, y with
  | Num a, Num b => a >=? b
  | _, _ => false
  end.

Definition leb (x y : JsNumber) : bool :=
  match x, y with
  | Num a, Num b => a <=? b
  | _, _ => false
  end.

Definition strictEq (x y : JsNumber) : bool :=
  match x, y with
  | Num a, Num b => a =? b
  | _, _ => false
  end.

(** *** [Number::toString]

    A whole double below 10^21 in magnitude is written with all its
    decimal digits.  From 10^21 on it is written in exponent notation with
    the fewest digits that still denote the double: the digits of the
    shortest decimal that lies in the rounding interval of the double, the
    nearest to it when there are two. *)

(** The number of decimal digits of [v > 0]. *)
Definition decimalLength (v : Z) : Z := Z.of_nat (String.length (pretty v)).

(** Whether the whole number [x] rounds to the double [v >= 2^54]. *)
Definition roundsTo (v x : Z) : bool :=
  let e := Z.log2 v - 52 in
  let m := v / 2 ^ e in
  let up := 2 ^ (e - 1) in
  let down := if m =? 2 ^ 52 then 2 ^ (e - 2) else 2 ^ (e - 1) in
  if Z.even m then (v - down <=? x) && (x <=? v + up)
  else (v - down <? x) && (x <? v + up).

(** The shortest decimal for [v], tried with [k], [k + 1], ... significant
    digits out of [n]; 17 digits always suffice. *)
Fixpoint shortest (fuel : nat) (v n k : Z) : Z :=
  match fuel with
  | O => v
  | S fuel' =>
      let p := 10 ^ (n - k) in
      let a := v / p * p in
      let b := a + p in
      match roundsTo v a, roundsTo v b with
      | true, true => if v - a <=? b - v then a else b
      | true, false => a
      | false, true => b
      | false, false => shortest fuel' v n (k + 1)
      end
  end.

Definition shortestDecimal (v : Z) : Z := shortest 17 v (decimalLength v) 1.

Fixpoint stripZeros (fuel : nat) (x : Z) : Z :=
  match fuel with
  | O => x
  | S fuel' => if x mod 10 =? 0 then stripZeros fuel' (x / 10) else x
  end.

(** [d.ddd] from the digits [dddd]. *)
Definition pointAfterFirst (digits : string) : string :=
  match digits with
  | String c EmptyString => digits
  | String c rest => String c ("." +:+ rest)
  | EmptyString => digits
  end.

Definition exponentNotation (v : Z) : string :=
  let x := shortestDecimal v in
  pointAfterFirst (pretty (stripZeros 400 x)) +:+ "e+" +:+ pretty (decimalLength x - 1).

Definition toString (x : JsNumber) : string :=
  match x with
  | NaN => "NaN"
  | Num z =>
      if Z.abs z <? 10 ^ 21 then pretty z
      else if z <? 0 then "-" +:+ exponentNotation (- z)
      else exponentNotation z
  end.

(** *** [parseInt] *)

(** White space among the characters below U+0100: tab, line feed,
    vertical tab, form feed, carriage return, space and no-break space. *)
Definition isWhiteSpace (c : ascii) : bool :=
  let n := Z.of_nat (nat_of_ascii c) in
  (n =? 32) || ((9 <=? n) && (n <=? 13)) || (n =? 160).

Fixpoint trimStart (s : string) : string :=
  match s with
  | String c rest => if isWhiteSpace c then trimStart rest else s
  | EmptyString => s
  end.

Definition digitValue (c : ascii) : option Z :=
  let n := Z.of_nat (nat_of_ascii c) in
  if (48 <=? n) && (n <=? 57) then Some (n - 48)
  else if (97 <=? n) && (n <=? 122) then Some (n - 87)
  else if (65 <=? n) && (n <=? 90) then Some (n - 55)
  else None.

(** The value of the longest run of digits of the radix at the start of
    [s], [acc] being the value read so far ([None]: no digit yet). *)
Fixpoint readDigits (radix : Z) (s : string) (acc : option Z) : option Z :=
  match s with
  | String c rest =>
      match digitValue c with
      | Some v =>
          if v <? radix
          then readDigits radix rest (Some (default 0 acc * radix + v))
          else acc
      | None => acc
      end
  | EmptyString => acc
  end.

Definition readSign (s : string) : Z * string :=
  match s with
  | String "-" rest => (-1, rest)
  | String "+" rest => (1, rest)
  | _ => (1, s)
  end.

Definition readRadix (s : string) : Z * string :=
  match s with
  | String "0" (String "x" rest) => (16, rest)
  | String "0" (String "X" rest) => (16, rest)
  | _ => (10, s)
  end.

(** [parseInt(s)] for a string: leading white space, a sign, a
    hexadecimal prefix, then the longest run of digits; what follows is
    ignored, and without a digit the result is [NaN]. *)
Definition parseIntText (s : string) : JsNumber :=
  let '(sign, s) := readSign (trimStart s) in
  let '(radix, s) := readRadix s in
  match readDigits radix s None with
  | Some n => Num (sign * roundToDouble n)
  | None => NaN
  end.

End JsNumber.

(** ** JavaScript [Date] arithmetic

    A [Date] is represented by its local time value in milliseconds
    (ECMA-262 [LocalTime(t)]) for a zone with a constant UTC offset.  All
    getters and setters of the source work on local time, and
    [toISOString] is an injective rendering of the time value, so
    results are compared as time values.  The functions of this module are
    the exact arithmetic on time values; [DateObject] below adds what a
    [Date] object does on top of it: the limits of the range of time
    values, taken in local time, the invalid [Date], and the rounding of
    the doubles. *)
Module JsDate.

Definition msPerSecond : Z := 1000.
Definition msPerMinute : Z := 60000.
Definition msPerHour : Z := 3600000.
Definition msPerDay : Z := 86400000.

Definition Day (t : Z) : Z := t / msPerDay.
Definition TimeWithinDay (t : Z) : Z := t mod msPerDay.

Definition getHours (t : Z) : Z := (t / msPerHour) mod 24.
Definition getMinutes (t : Z) : Z := (t / msPerMinute) mod 60.
Definition getSeconds (t : Z) : Z := (t / msPerSecond) mod 60.
Definition getMilliseconds (t : Z) : Z := t mod msPerSecond.

(** Day of the week, 0 = Sunday ... 6 = Saturday; day 0 of the epoch is
    a Thursday. *)
Definition getDay (t : Z) : Z := (Day t + 4) mod 7.

Definition MakeTime (h m s ms : Z) : Z :=
  h * msPerHour + m * msPerMinute + s * msPerSecond + ms.
Definition MakeDate (day time : Z) : Z := day * msPerDay + time.

(** [d.setHours(h)]: minutes, seconds and milliseconds are kept; an hour
    outside 0..23 carries into the day. *)
Definition setHours (t h : Z) : Z :=
  MakeDate (Day t) (MakeTime h (getMinutes t) (getSeconds t) (getMilliseconds t)).

(** [d.setHours(h, m, s, ms)]. *)
Definition setHours4 (t h m s ms : Z) : Z :=
  MakeDate (Day t) (MakeTime h m s ms).

(** [d.setMinutes(m)]. *)
Definition setMinutes (t m : Z) : Z :=
  MakeDate (Day t) (MakeTime (getHours t) m (getSeconds t) (getMilliseconds t)).

(** [d.getDate()]: the day of the month, 1..31, of the proleptic Gregorian
    calendar ([DateFromTime]). *)
Definition getDate (t : Z) : Z :=
  let z := Day t + 719468 in
  let era := z / 146097 in
  let doe := z - era * 146097 in
  let yoe := (doe - doe / 1460 + doe / 36524 - doe / 146096) / 365 in
  let doy := doe - (365 * yoe + yoe / 4 - yoe / 100) in
  let mp := (5 * doy + 2) / 153 in
  doy - (153 * mp + 2) / 5 + 1.

(** [d.setDate(dt)]: [MakeDay] counts [dt - 1] days from the first day of
    the month of [t], whatever the month length; the time within the day
    is kept. *)
Definition setDate (t dt : Z) : Z :=
  MakeDate (Day t - getDate t + 1 + (dt - 1)) (TimeWithinDay t).

(** The largest magnitude of a time value: 100,000,000 days. *)
Definition maxTime : Z := 8640000000000000.

(** [TimeClip]: a time value outside the range is no time value. *)
Definition TimeClip (t : Z) : option Z :=
  if Z.abs t <=? maxTime then Some t else None.

(** A time value of the range. *)
Definition valid (t : Z) : Prop := Z.abs t <= maxTime.

Ltac unfold_date :=
  unfold setDate, setMinutes, setHours4, setHours, MakeDate, MakeTime,
    getDay, getHours, getMinutes, getSeconds, getMilliseconds,
    Day, TimeWithinDay, msPerDay, msPerHour, msPerMinute, msPerSecond in *.

End JsDate.

(** ** [Array.prototype.sort]

    The sort is stable, and [SortCompare] uses only the sign of the number
    the comparator returns, with [NaN] read as [+0].  The comparator is
    therefore taken with values in [comparison]; the array is built by
    stable insertion, which is the result of every stable sort when the
    comparator is consistent.  For a comparator that is not consistent the
    order is left to the implementation by ECMA-262, and [sort] is one of
    the permutations an engine may return: the statements below that
    depend on the order are made for consistent comparators only. *)
Module JsSort.
Section Sort.
Context {A : Type} (comparefn : A -> A -> comparison).

Fixpoint insert (x : A) (l : list A) : list A :=
  match l with
  | [] => [x]
  | y :: l' =>
      match comparefn x y with
      | Gt => y :: insert x l'
      | _ => x :: y :: l'
      end
  end.

Definition sort (l : list A) : list A := foldr insert [] l.

(** [x] may stand before [y] in a sorted array. *)
Definition notAfter (x y : A) : Prop := comparefn x y <> Gt.

End Sort.
End JsSort.

(** ** Asynchronous computations

    An [async] function either resolves with a value or rejects with an
    error; the only ambient state the scheduling service reads is the clock:
    the [n]-th evaluation of [new Date()] in a run returns [clock n]. *)
Module Async.

Definition Error : Type := string.

Inductive Outcome (A : Type) : Type :=
| Resolved (a : A)
| Rejected (e : Error).
Arguments Resolved {A} a.
Arguments Rejected {A} e.

Definition Clock : Type := nat -> Z.

Definition M (A : Type) : Type := Clock -> nat -> Outcome A * nat.

Definition ret {A} (a : A) : M A := fun _ n => (Resolved a, n).

Definition bind {A B} (m : M A) (k : A -> M B) : M B :=
  fun clock n =>
    match m clock n with
    | (Resolved a, n') => k a clock n'
    | (Rejected e, n') => (Rejected e, n')
    end.

Definition throw {A} (e : Error) : M A := fun _ n => (Rejected e, n).

(** [await p] for a promise whose outcome is given; also the call of a
    function that returns or throws. *)
Definition await {A} (p : Outcome A) : M A := fun _ n => (p, n).

(** [try { body } catch (error) { handler }]. *)
Definition tryCatch {A} (body : M A) (handler : Error -> M A) : M A :=
  fun clock n =>
    match body clock n with
    | (Resolved a, n') => (Resolved a, n')
    | (Rejected e, n') => handler e clock n'
    end.

(** [new Date()]. *)
Definition newDate : M Z := fun clock n => (Resolved (clock n), S n).

(** [for (const x of xs) { acc = body(x, acc) }]. *)
Fixpoint forOf {A S} (xs : list A) (body : A -> S -> M S) (acc : S) : M S :=
  match xs with
  | [] => ret acc
  | x :: xs' => bind (body x acc) (forOf xs' body)
  end.

Definition run {A} (m : M A) (clock : Clock) : Outcome A := fst (m clock O).

End Async.

Declare Scope async_scope.
Delimit Scope async_scope with async.
Notation "x <- m ;; k" := (Async.bind m (fun x => k))
  (at level 100, m at next level, right associativity) : async_scope.

(** ** [Date] objects

    A [Date] object holds a time value of the range, or the value [NaN]:
    the invalid [Date].  A setter computes the new time value in doubles
    ([MakeTime], [MakeDate]) and stores it through [TimeClip]; on an invalid
    [Date], or with the argument [NaN], it leaves the invalid [Date].  A
    getter of an invalid [Date] returns [NaN], and [toISOString] throws a
    [RangeError] on it. *)
Module DateObject.
Import JsNumber Async.

Definition Date : Type := option Z.

(** [new Date(value)] for a time value, and [new Date(date)]. *)
Definition ofTimeValue (tv : Z) : Date := JsDate.TimeClip tv.

Definition valueOf (d : Date) : JsNumber :=
  match d with
  | Some t => Num t
  | None => NaN
  end.

Definition getHours (d : Date) : JsNumber :=
  match d with
  | Some t => Num (JsDate.getHours t)
  | None => NaN
  end.

Definition getMinutes (d : Date) : JsNumber :=
  match d with
  | Some t => Num (JsDate.getMinutes t)
  | None => NaN
  end.

Definition getDate (d : Date) : JsNumber :=
  match d with
  | Some t => Num (JsDate.getDate t)
  | None => NaN
  end.

Definition getDay (d : Date) : JsNumber :=
  match d with
  | Some t => Num (JsDate.getDay t)
  | None => NaN
  end.

(** [MakeTime] and [MakeDate], in the arithmetic of doubles. *)
Definition MakeTime (hour min sec ms : Z) : Z :=
  roundToDouble
    (roundToDouble
       (roundToDouble
          (roundToDouble (hour * JsDate.msPerHour)
           + roundToDouble (min * JsDate.msPerMinute))
        + roundToDouble (sec * JsDate.msPerSecond))
     + ms).

Definition MakeDate (day time : Z) : Z :=
  roundToDouble (roundToDouble (day * JsDate.msPerDay) + time).

(** [d.setHours(hour)]. *)
Definition setHours (d : Date) (hour : JsNumber) : Date :=
  match d, hour with
  | Some t, Num h =>
      JsDate.TimeClip
        (MakeDate (JsDate.Day t)
           (MakeTime h (JsDate.getMinutes t) (JsDate.getSeconds t)
              (JsDate.getMilliseconds t)))
  | _, _ => None
  end.

(** [d.setHours(hour, min, sec, ms)] with whole arguments. *)
Definition setHours4 (d : Date) (hour min sec ms : Z) : Date :=
  match d with
  | Some t => JsDate.TimeClip (MakeDate (JsDate.Day t) (MakeTime hour min sec ms))
  | None => None
  end.

(** [d.setMinutes(min)]. *)
Definition setMinutes (d : Date) (min : JsNumber) : Date :=
  match d, min with
  | Some t, Num m =>
      JsDate.TimeClip
        (MakeDate (JsDate.Day t)
           (MakeTime (JsDate.getHours t) m (JsDate.getSeconds t)
              (JsDate.getMilliseconds t)))
  | _, _ => None
  end.

(** [d.setDate(date)]: [MakeDay] counts [date - 1] days from the first day
    of the month. *)
Definition setDate (d : Date) (date : JsNumber) : Date :=
  match d, date with
  | Some t, Num dt =>
      JsDate.TimeClip
        (MakeDate (JsDate.Day t - JsDate.getDate t + 1 + (dt - 1))
           (JsDate.TimeWithinDay t))
  | _, _ => None
  end.

(** [a < b] on two [Date] objects. *)
Definition ltb (a b : Date) : bool := JsNumber.ltb (valueOf a) (valueOf b).

(** [d.toISOString()]; the string is represented by the time value it
    renders. *)
Definition toISOString (d : Date) : Outcome Z :=
  match d with
  | Some t => Resolved t
  | None => Rejected "Invalid time value"
  end.

End DateObject.

(** ** The scheduling service ([aiSchedulingService]) *)
Module Scheduling.
Import JsNumber JsDate Async.

Inductive Priority : Type := low | medium | high | urgent.

Definition priorityName (p : Priority) : string :=
  match p with
  | low => "low" | medium => "medium" | high => "high" | urgent => "urgent"
  end.

(** What [taskData.estimated_duration] holds: nothing ([null], [undefined]
    or no such field), a number of whole minutes as the server sends it (a
    whole number that is a double), or text, as the task form passes the
    content of its duration input. *)
Inductive FieldValue : Type :=
| Absent
| Number (n : Z)
| Text (s : string).

(** The truthiness of a field value. *)
Definition truthy (v : FieldValue) : bool :=
  match v with
  | Absent => false
  | Number n => negb (n =? 0)
  | Text s => negb (String.eqb s "")
  end.

(** [parseInt(v)]: the argument is turned into text, and the text is
    read. *)
Definition parseInt (v : FieldValue) : JsNumber :=
  match v with
  | Absent => parseIntText "undefined"
  | Number n => parseIntText (toString (Num n))
  | Text s => parseIntText s
  end.

(** A task object as the service reads it.  [deadline] is the time value
    of [new Date(task.deadline)], [None] when the field is null, empty or
    absent. *)
Record Task : Type := mkTask {
  id : Z;
  title : string;
  priority : Priority;
  deadline : option Z;
  estimated_duration : FieldValue;
  created_at : Z
}.

Record Suggestion : Type := mkSuggestion {
  suggested_start_time : Z;
  suggested_end_time : Z;
  reasoning : string;
  confidence_score : Q
}.

(** [taskData.estimated_duration ? parseInt(taskData.estimated_duration) : 60]
    (line 83). *)
Definition durationOf (taskData : Task) : JsNumber :=
  if truthy (estimated_duration taskData)
  then parseInt (estimated_duration taskData)
  else Num 60.

(** Lines 86-103: the start derived from the priority alone. *)
Definition startByPriority (now : DateObject.Date) (taskData : Task)
    : DateObject.Date :=
  let suggestedStartTime := now in
  match priority taskData with
  | high =>
      DateObject.setHours suggestedStartTime
        (add (DateObject.getHours suggestedStartTime) (Num 1))
  | medium =>
      DateObject.setHours suggestedStartTime
        (add (DateObject.getHours suggestedStartTime) (Num 24))
  | _ =>
      DateObject.setHours suggestedStartTime
        (add (DateObject.getHours suggestedStartTime) (Num 72))
  end.

(** Lines 105-128. *)
Definition beforeDeadline (taskData : Task) (suggestedStartTime : DateObject.Date)
    : DateObject.Date :=
  match deadline taskData with
  | Some d =>
      let deadline := DateObject.setHours4 (DateObject.ofTimeValue d) 23 59 59 999 in
      if DateObject.ltb deadline suggestedStartTime then
        match priority taskData with
        | high =>
            DateObject.setHours deadline (sub (DateObject.getHours deadline) (Num 24))
        | medium =>
            DateObject.setHours deadline (sub (DateObject.getHours deadline) (Num 48))
        | _ =>
            DateObject.setHours deadline (sub (DateObject.getHours deadline) (Num 72))
        end
      else suggestedStartTime
  | None => suggestedStartTime
  end.

(** [d.setDate(d.getDate() + 1); d.setHours(9, 0, 0, 0)]. *)
Definition nextDayAtNine (d : DateObject.Date) : DateObject.Date :=
  DateObject.setHours4
    (DateObject.setDate d (add (DateObject.getDate d) (Num 1))) 9 0 0 0.

(** Lines 130-137. *)
Definition inWorkingHours (suggestedStartTime : DateObject.Date) : DateObject.Date :=
  if ltb (DateObject.getHours suggestedStartTime) (Num 9) then
    DateObject.setHours4 suggestedStartTime 9 0 0 0
  else if geb (DateObject.getHours suggestedStartTime) (Num 17) then
    nextDayAtNine suggestedStartTime
  else suggestedStartTime.

(** [e = new Date(start); e.setMinutes(e.getMinutes() + duration)]. *)
Definition endAfter (duration : JsNumber) (suggestedStartTime : DateObject.Date)
    : DateObject.Date :=
  DateObject.setMinutes suggestedStartTime
    (add (DateObject.getMinutes suggestedStartTime) duration).

(** Lines 139-155: the pair (start, end). *)
Definition withEnd (duration : JsNumber) (suggestedStartTime : DateObject.Date)
    : DateObject.Date * DateObject.Date :=
  let suggestedEndTime := endAfter duration suggestedStartTime in
  if geb (DateObject.getHours suggestedEndTime) (Num 17) then
    if strictEq (DateObject.getHours suggestedEndTime) (Num 17)
       && leb (DateObject.getMinutes suggestedEndTime) (Num 30)
    then (suggestedStartTime, suggestedEndTime)
    else
      let start' := nextDayAtNine suggestedStartTime in
      (start', endAfter duration start')
  else (suggestedStartTime, suggestedEndTime).

(** Lines 157-167. *)
Definition offWeekend (duration : JsNumber) (se : DateObject.Date * DateObject.Date)
    : DateObject.Date * DateObject.Date :=
  let '(suggestedStartTime, suggestedEndTime) := se in
  let dayOfWeek := DateObject.getDay suggestedStartTime in
  if strictEq dayOfWeek (Num 0) then
    let start' :=
      DateObject.setDate suggestedStartTime
        (add (DateObject.getDate suggestedStartTime) (Num 1)) in
    (start', endAfter duration start')
  else if strictEq dayOfWeek (Num 6) then
    let start' :=
      DateObject.setDate suggestedStartTime
        (add (DateObject.getDate suggestedStartTime) (Num 2)) in
    (start', endAfter duration start')
  else (suggestedStartTime, suggestedEndTime).

Definition reasoningText (taskData : Task) (duration : JsNumber) : string :=
  ("Scheduling based on task priority (" +:+ priorityName (priority taskData)
   +:+ ") and estimated duration (" +:+ toString duration +:+ " minutes).")%string.

(** [generateLocalSchedulingSuggestions(taskData, startDate, endDate)];
    [now] is the value of [new Date()] read on entry.  The call returns
    the suggestion or throws the [RangeError] of [toISOString] (lines
    170-171). *)
Definition generateLocalSchedulingSuggestions
    (now : Z) (taskData : Task) (startDate endDate : option Z)
    : Outcome Suggestion :=
  let now := DateObject.ofTimeValue now in
  let duration := durationOf taskData in
  let suggestedStartTime := startByPriority now taskData in
  let suggestedStartTime := beforeDeadline taskData suggestedStartTime in
  let suggestedStartTime := inWorkingHours suggestedStartTime in
  let '(suggestedStartTime, suggestedEndTime) :=
    offWeekend duration (withEnd duration suggestedStartTime) in
  match DateObject.toISOString suggestedStartTime with
  | Rejected e => Rejected e
  | Resolved start =>
      match DateObject.toISOString suggestedEndTime with
      | Rejected e => Rejected e
      | Resolved end_ =>
          Resolved {| suggested_start_time := start;
                      suggested_end_time := end_;
                      reasoning := reasoningText taskData duration;
                      confidence_score := 7 # 10 |}
      end
  end.

(** *** The comparator of [getOptimizedSchedule] *)

(** [x - y] where [undefined] converts to [NaN]. *)
Definition jsSub (x y : option Z) : JsNumber :=
  match x, y with
  | Some a, Some b => Num (a - b)
  | _, _ => NaN
  end.

(** [v !== 0]. *)
Definition notStrictlyZero (v : JsNumber) : bool :=
  match v with
  | Num z => negb (z =? 0)
  | NaN => true
  end.

(** [SortCompare]: the sign of the comparator's value, [NaN] as [+0]. *)
Definition SortCompare (v : JsNumber) : comparison :=
  match v with
  | Num z => z ?= 0
  | NaN => Eq
  end.

(** [{ high: 3, medium: 2, low: 1 }[p]]; any other key is [undefined]. *)
Definition priorityOrder (p : Priority) : option Z :=
  match p with
  | high => Some 3
  | medium => Some 2
  | low => Some 1
  | urgent => None
  end.

(** Lines 264-280.  The difference of two time values is kept exact: its
    rounding to a double leaves its sign as it is. *)
Definition compareTasks (a b : Task) : JsNumber :=
  let priorityDiff := jsSub (priorityOrder (priority b)) (priorityOrder (priority a)) in
  if notStrictlyZero priorityDiff then priorityDiff
  else
    match deadline a, deadline b with
    | Some da, Some db => Num (da - db)
    | Some _, None => Num (-1)
    | None, Some _ => Num 1
    | None, None => Num 0
    end.

Definition sortTasks (tasks : list Task) : list Task :=
  JsSort.sort (fun a b => SortCompare (compareTasks a b)) tasks.

(** *** The remote collaborators *)

(** A parsed JSON payload, represented by the text [JSON.stringify]
    writes for it. *)
Definition Json : Type := string.

(** The payload [null]. *)
Definition isNull (data : Json) : bool := String.eqb data "null".

Definition Token : Type := option string.

(** [!token] is false exactly for a non-empty string. *)
Definition truthyToken (token : Token) : bool :=
  match token with
  | Some s => negb (String.eqb s "")
  | None => false
  end.

Record Response : Type := mkResponse {
  ok : bool;
  status : Z;
  json : Outcome Json
}.

Record SuggestionRequest : Type := mkSuggestionRequest {
  req_task : Task;
  req_calendar_events : Json;
  req_time_blocks : Json;
  req_start_date : Z;
  req_end_date : Z
}.

(** What the network and the browser storage answer during one call.  The
    formatted dates sent to the server are functions of the time values
    given here. *)
Record Backend : Type := mkBackend {
  fetchCalendarEvents : Token -> Z -> Z -> Outcome Json;
  fetchTimeBlocks : Token -> Z -> Z -> Outcome Json;
  fetchSuggestions : Token -> SuggestionRequest -> Outcome Response;
  fetchOptimize : Token -> list Task -> Outcome Response;
  (** [JSON.parse(localStorage.getItem('userData') || '{}').token] *)
  storedUserToken : Outcome Token;
  (** [localStorage.getItem('authToken')] *)
  storedAuthToken : Token
}.

(** [Promise.all([p, q])]. *)
Definition promiseAll2 {A B} (p : Outcome A) (q : Outcome B) : Outcome (A * B) :=
  match p, q with
  | Resolved a, Resolved b => Resolved (a, b)
  | Rejected e, _ => Rejected e
  | _, Rejected e => Rejected e
  end.

Inductive SuggestionResult : Type :=
| RemoteSuggestion (data : Json)
| LocalSuggestion (s : Suggestion).

Local Open Scope async_scope.

(** The [try] block of [getSchedulingSuggestions] after the two date
    defaults (lines 28-62). *)
Definition remoteSuggestions (srv : Backend) (token : Token) (taskData : Task)
    (startDate endDate : Z) : M SuggestionResult :=
  et <- await (promiseAll2 (fetchCalendarEvents srv token startDate endDate)
                           (fetchTimeBlocks srv token startDate endDate)) ;;
  let requestData :=
    {| req_task := taskData;
       req_calendar_events := fst et;
       req_time_blocks := snd et;
       req_start_date := startDate;
       req_end_date := endDate |} in
  response <- await (fetchSuggestions srv token requestData) ;;
  if negb (ok response) then
    throw ("Error getting scheduling suggestions: " +:+ pretty (status response))%string
  else
    data <- await (json response) ;;
    ret (RemoteSuggestion data).

(** Lines 15-26: the defaults of the scheduling window, for window dates
    inside the range of time values. *)
Definition windowDefaults (startDate endDate : option Z) : M (Z * Z) :=
  startDate <- match startDate with
               | Some d => ret d
               | None => d <- newDate ;; ret (setHours4 d 0 0 0 0)
               end ;;
  let endDate :=
    match endDate with
    | Some e => e
    | None => setHours4 (setDate startDate (getDate startDate + 7)) 23 59 59 999
    end in
  ret (startDate, endDate).

(** [getSchedulingSuggestions(token, taskData, startDate, endDate)].  The
    window defaults are computed before the [try]; the handler sees the
    defaulted values, as in the source.  The handler returns what the local
    suggestion returns and throws what it throws. *)
Definition getSchedulingSuggestions (srv : Backend) (token : Token)
    (taskData : Task) (startDate endDate : option Z) : M SuggestionResult :=
  window <- windowDefaults startDate endDate ;;
  tryCatch
    (remoteSuggestions srv token taskData (fst window) (snd window))
    (fun error =>
       now <- newDate ;;
       suggestion <- await (generateLocalSchedulingSuggestions now taskData
                              (Some (fst window)) (Some (snd window))) ;;
       ret (LocalSuggestion suggestion)).

Record ScheduleEntry : Type := mkScheduleEntry {
  task_id : Z;
  task_title : string;
  entry_start_time : Z;
  entry_end_time : Z;
  entry_priority : Priority;
  entry_reasoning : string
}.

Inductive ScheduleResult : Type :=
| RemoteSchedule (data : Json)
| LocalSchedule (schedule : list ScheduleEntry).

(** Lines 231-256. *)
Definition remoteSchedule (srv : Backend) (token : Token) (tasks : list Task)
    : M ScheduleResult :=
  token' <- (if truthyToken token then ret token
             else
               userToken <- await (storedUserToken srv) ;;
               let token := if truthyToken userToken then userToken
                            else storedAuthToken srv in
               if truthyToken token then ret token
               else throw "Authentication token not found"%string) ;;
  response <- await (fetchOptimize srv token' tasks) ;;
  if negb (ok response) then
    throw ("Error optimizing schedule: " +:+ pretty (status response))%string
  else
    data <- await (json response) ;;
    ret (RemoteSchedule data).

(** One iteration of the loop of lines 283-293. *)
Definition scheduleStep (task : Task) (schedule : list ScheduleEntry)
    : M (list ScheduleEntry) :=
  now <- newDate ;;
  suggestion <- await (generateLocalSchedulingSuggestions now task None None) ;;
  ret (schedule ++
       [ {| task_id := id task;
            task_title := title task;
            entry_start_time := suggested_start_time suggestion;
            entry_end_time := suggested_end_time suggestion;
            entry_priority := priority task;
            entry_reasoning := reasoning suggestion |} ]).

(** The [catch] block of [getOptimizedSchedule] (lines 260-295). *)
Definition localSchedule (tasks : list Task) : M (list ScheduleEntry) :=
  let sortedTasks := sortTasks tasks in
  forOf sortedTasks scheduleStep [].

(** [getOptimizedSchedule(token, tasks)]. *)
Definition getOptimizedSchedule (srv : Backend) (token : Token)
    (tasks : list Task) : M ScheduleResult :=
  tryCatch
    (remoteSchedule srv token tasks)
    (fun error =>
       schedule <- localSchedule tasks ;;
       ret (LocalSchedule schedule)).

End Scheduling.
(** ** The time block dialog ([TimeBlockModal.handleSubmit]) *)
Module TimeBlockModal.
Import Async.

(** The form state.  [task_id] is [None] for the empty string of an
    unselected task; a date field is [None] when it holds no valid
    [Date] (deselected in the calendar, or an invalid date). *)
Record FormData : Type := mkFormData {
  task_id : option Z;
  start_time : option Z;
  end_time : option Z;
  status : string;
  notes : string;
  actual_start_time : option Z;
  actual_end_time : option Z
}.

(** [!formData.task_id]: the empty string and the number 0 are falsy. *)
Definition noTaskSelected (formData : FormData) : bool :=
  match task_id formData with
  | Some i => i =? 0
  | None => true
  end.

(** [a >= b] on dates: both operands convert to numbers, and a comparison
    with [NaN] is false. *)
Definition jsGe (a b : option Z) : bool :=
  match a, b with
  | Some x, Some y => x >=? y
  | _, _ => false
  end.

Inductive Request : Type :=
| CreateTimeBlock (token : string) (data : FormData)
| UpdateTimeBlock (token : string) (timeBlockId : Z) (data : FormData).

Record Toast : Type := mkToast {
  toast_title : string;
  toast_description : string;
  toast_destructive : bool
}.

(** What a run of the handler can change: the [loading] flag, the toasts
    shown, the requests sent to the time block API, the calls of
    [onTimeBlockChange] and of [onClose]. *)
Record Ui : Type := mkUi {
  loading : bool;
  toasts : list Toast;
  requests : list Request;
  changeNotifications : nat;
  closeCalls : nat
}.

Record Props : Type := mkProps {
  token : string;
  (** [timeBlock.id], [None] when [timeBlock] is null *)
  timeBlock : option Z;
  isCreating : bool;
  hasOnTimeBlockChange : bool
}.

Definition setLoading (b : bool) (ui : Ui) : Ui :=
  {| loading := b; toasts := toasts ui; requests := requests ui;
     changeNotifications := changeNotifications ui; closeCalls := closeCalls ui |}.

Definition toast (t : Toast) (ui : Ui) : Ui :=
  {| loading := loading ui; toasts := toasts ui ++ [t]; requests := requests ui;
     changeNotifications := changeNotifications ui; closeCalls := closeCalls ui |}.

Definition send (r : Request) (ui : Ui) : Ui :=
  {| loading := loading ui; toasts := toasts ui; requests := requests ui ++ [r];
     changeNotifications := changeNotifications ui; closeCalls := closeCalls ui |}.

Definition onTimeBlockChange (ui : Ui) : Ui :=
  {| loading := loading ui; toasts := toasts ui; requests := requests ui;
     changeNotifications := S (changeNotifications ui); closeCalls := closeCalls ui |}.

Definition onClose (ui : Ui) : Ui :=
  {| loading := loading ui; toasts := toasts ui; requests := requests ui;
     changeNotifications := changeNotifications ui; closeCalls := S (closeCalls ui) |}.

Definition errorToast (description : string) : Toast :=
  {| toast_title := "Error"; toast_description := description;
     toast_destructive := true |}.

Definition successToast (description : string) : Toast :=
  {| toast_title := "Success"; toast_description := description;
     toast_destructive := false |}.

(** [error.message || "Failed to save time block. Please try again."] *)
Definition failureText (message : string) : string :=
  if String.eqb message "" then "Failed to save time block. Please try again."
  else message.

(** Lines 106-127 after a request has resolved. *)
Definition afterSaved (props : Props) (description : string) (ui : Ui) : Ui :=
  let ui := toast (successToast description) ui in
  let ui := if hasOnTimeBlockChange props then onTimeBlockChange ui else ui in
  onClose ui.

(** [handleSubmit()]: [api r] is the outcome of the request [r]. *)
Definition handleSubmit (props : Props) (formData : FormData)
    (api : Request -> Outcome unit) (ui : Ui) : Ui :=
  let ui := setLoading true ui in
  if noTaskSelected formData then
    let ui := toast (errorToast "Please select a task") ui in
    let ui := setLoading false ui in
    setLoading false ui
  else if jsGe (start_time formData) (end_time formData) then
    let ui := toast (errorToast "End time must be after start time") ui in
    let ui := setLoading false ui in
    setLoading false ui
  else
    let ui :=
      if isCreating props then
        let r := CreateTimeBlock (token props) formData in
        let ui := send r ui in
        match api r with
        | Resolved _ => afterSaved props "Time block created successfully" ui
        | Rejected message => toast (errorToast (failureText message)) ui
        end
      else
        match timeBlock props with
        | None =>
            (* reading [timeBlock.id] of null throws before any request *)
            toast (errorToast (failureText "Cannot read properties of null (reading 'id')")) ui
        | Some timeBlockId =>
            let r := UpdateTimeBlock (token props) timeBlockId formData in
            let ui := send r ui in
            match api r with
            | Resolved _ => afterSaved props "Time block updated successfully" ui
            | Rejected message => toast (errorToast (failureText message)) ui
            end
        end in
    setLoading false ui.

Definition requestData (r : Request) : FormData :=
  match r with
  | CreateTimeBlock _ data => data
  | UpdateTimeBlock _ _ data => data
  end.

End TimeBlockModal.

(** ** AI prioritisation of a task list ([useTaskPrioritization]) *)
Module TaskPrioritization.

Definition Factors : Type := string.

(** An entry of the [prioritized_tasks] array of the API. *)
Record PrioritizedTask : Type := mkPrioritizedTask {
  pt_id : Z;
  ai_priority_score : option Q;
  factors : option Factors
}.

(** A task of the list being displayed; the two AI fields are [None]
    until a task has been through [applyAIPrioritization]. *)
Record Task : Type := mkTask {
  id : Z;
  title : string;
  aiPriorityScore : option Q;
  aiPriorityFactors : option Factors
}.

Record PriorityInfo : Type := mkPriorityInfo {
  info_aiPriorityScore : option Q;
  info_factors : option Factors
}.

(** [x || 0] on an optional number. *)
Definition orZero (x : option Q) : Q :=
  match x with
  | Some q => if Qeq_bool q 0 then 0%Q else q
  | None => 0%Q
  end.

(** Lines 82-88: later entries overwrite earlier ones with the same id. *)
Definition buildPriorityMap (prioritizedTasks : list PrioritizedTask)
    : gmap Z PriorityInfo :=
  foldl (fun priorityMap task =>
           <[pt_id task := {| info_aiPriorityScore := ai_priority_score task;
                              info_factors := factors task |}]> priorityMap)
        ∅ prioritizedTasks.

(** Lines 91-98. *)
Definition enhance (priorityMap : gmap Z PriorityInfo) (task : Task) : Task :=
  let priorityInfo := priorityMap !! id task in
  {| id := id task;
     title := title task;
     aiPriorityScore :=
       Some (orZero (priorityInfo ≫= info_aiPriorityScore));
     aiPriorityFactors := priorityInfo ≫= info_factors |}.

(** Lines 101-103: the sign of [(b.aiPriorityScore || 0) - (a.aiPriorityScore || 0)]. *)
Definition compareScores (a b : Task) : comparison :=
  (orZero (aiPriorityScore b) - orZero (aiPriorityScore a) ?= 0)%Q.

(** The argument of [applyAIPrioritization]: an array of tasks, or any
    other value. *)
Inductive TasksArg : Type :=
| NotAnArray (v : string)
| TaskArray (tasks : list Task).

(** The state of the hook that the function closes over. *)
Record HookState : Type := mkHookState {
  prioritizedTasks : list PrioritizedTask;
  aiPrioritizationEnabled : bool
}.

Definition applyAIPrioritization (st : HookState) (tasks : TasksArg) : TasksArg :=
  match tasks with
  | NotAnArray _ => tasks
  | TaskArray [] => tasks
  | TaskArray l =>
      if negb (aiPrioritizationEnabled st) || (length (prioritizedTasks st) =? 0)%nat
      then tasks
      else
        let priorityMap := buildPriorityMap (prioritizedTasks st) in
        let enhancedTasks := map (enhance priorityMap) l in
        TaskArray (JsSort.sort compareScores enhancedTasks)
  end.

End TaskPrioritization.

(** ** Vocabulary of the properties of the scheduling service *)
Module SchedulingSpec.
Import JsNumber JsDate Async Scheduling.

(** *** The steps of lines 86-167 on time values

    The same steps as exact arithmetic on time values, for a duration of
    [duration] minutes, without the limits of a [Date] object.  They are
    what the call computes as long as no [Date] leaves the range. *)

Definition priorityStart (now : Z) (taskData : Task) : Z :=
  match priority taskData with
  | high => setHours now (getHours now + 1)
  | medium => setHours now (getHours now + 24)
  | _ => setHours now (getHours now + 72)
  end.

Definition deadlineAdjust (taskData : Task) (suggestedStartTime : Z) : Z :=
  match deadline taskData with
  | Some d =>
      let deadline := setHours4 d 23 59 59 999 in
      if deadline <? suggestedStartTime then
        match priority taskData with
        | high => setHours deadline (getHours deadline - 24)
        | medium => setHours deadline (getHours deadline - 48)
        | _ => setHours deadline (getHours deadline - 72)
        end
      else suggestedStartTime
  | None => suggestedStartTime
  end.

Definition workingHoursAdjust (suggestedStartTime : Z) : Z :=
  if getHours suggestedStartTime <? 9 then
    setHours4 suggestedStartTime 9 0 0 0
  else if getHours suggestedStartTime >=? 17 then
    setHours4 (setDate suggestedStartTime (getDate suggestedStartTime + 1)) 9 0 0 0
  else suggestedStartTime.

Definition endAdjust (duration suggestedStartTime : Z) : Z * Z :=
  let suggestedEndTime :=
    setMinutes suggestedStartTime (getMinutes suggestedStartTime + duration) in
  if getHours suggestedEndTime >=? 17 then
    if (getHours suggestedEndTime =? 17) && (getMinutes suggestedEndTime <=? 30)
    then (suggestedStartTime, suggestedEndTime)
    else
      let start' :=
        setHours4 (setDate suggestedStartTime (getDate suggestedStartTime + 1))
          9 0 0 0 in
      (start', setMinutes start' (getMinutes start' + duration))
  else (suggestedStartTime, suggestedEndTime).

Definition weekendAdjust (duration : Z) (se : Z * Z) : Z * Z :=
  let '(suggestedStartTime, suggestedEndTime) := se in
  let dayOfWeek := getDay suggestedStartTime in
  if dayOfWeek =? 0 then
    let start' := setDate suggestedStartTime (getDate suggestedStartTime + 1) in
    (start', setMinutes start' (getMinutes start' + duration))
  else if dayOfWeek =? 6 then
    let start' := setDate suggestedStartTime (getDate suggestedStartTime + 2) in
    (start', setMinutes start' (getMinutes start' + duration))
  else (suggestedStartTime, suggestedEndTime).

(** The interval these steps give. *)
Definition slot (duration now : Z) (taskData : Task) : Z * Z :=
  weekendAdjust duration
    (endAdjust duration
       (workingHoursAdjust (deadlineAdjust taskData (priorityStart now taskData)))).

(** A time value within 8 * 10^15 ms of the epoch: a [Date] of the years
    up to 250,000. *)
Definition ordinaryTime (t : Z) : Prop := Z.abs t <= 8 * 10 ^ 15.

(** A time value that stays in the range through the steps of the local
    suggestion. *)
Definition near (t : Z) : Prop := Z.abs t <= 85 * 10 ^ 14.

(** A task whose duration in use is a number of at most 10^9 minutes and
    whose deadline, if any, is an ordinary time. *)
Definition ordinaryTask (taskData : Task) : Prop :=
  (exists d, durationOf taskData = Num d /\ Z.abs d <= 10 ^ 9) /\
  (forall d, deadline taskData = Some d -> ordinaryTime d).

(** Start within the working day: 09:00 inclusive to 17:00 exclusive. *)
Definition startsInWorkingHours (t : Z) : Prop := 9 <= getHours t < 17.

Definition onWeekday (t : Z) : Prop := 1 <= getDay t <= 5.

(** Monday 2025-01-06 is day 20094 of the epoch. *)
Definition monday : Z := 20094.

(** [day] at [h]:[m]:00.000 local time. *)
Definition at_ (day h m : Z) : Z := MakeDate day (MakeTime h m 0 0).

(** 09:00 to 17:00, both inclusive. *)
Definition withinWorkingHours (t : Z) : Prop :=
  9 * msPerHour <= TimeWithinDay t <= 17 * msPerHour.

(** The entry pushed for [task] when the clock reads [now], when the
    local suggestion is returned. *)
Definition entryOf (now : Z) (task : Task) : Outcome ScheduleEntry :=
  match generateLocalSchedulingSuggestions now task None None with
  | Resolved suggestion =>
      Resolved {| task_id := id task;
                  task_title := title task;
                  entry_start_time := suggested_start_time suggestion;
                  entry_end_time := suggested_end_time suggestion;
                  entry_priority := priority task;
                  entry_reasoning := reasoning suggestion |}
  | Rejected e => Rejected e
  end.

(** The entries of the tasks in turn, the first one from the [n]-th clock
    reading on; the first suggestion that throws ends the run. *)
Fixpoint entriesFrom (clock : Clock) (n : nat) (tasks : list Task)
    : Outcome (list ScheduleEntry) :=
  match tasks with
  | [] => Resolved []
  | task :: rest =>
      match entryOf (clock n) task with
      | Resolved e =>
          match entriesFrom clock (S n) rest with
          | Resolved es => Resolved (e :: es)
          | Rejected err => Rejected err
          end
      | Rejected err => Rejected err
      end
  end.



(** The priority is one of the keys of [priorityOrder]. *)
Definition knownPriority (t : Task) : Prop := priority t <> urgent.







(** [deadline.setHours(23, 59, 59, 999)]. *)
Definition endOfDay (d : Z) : Z := setHours4 d 23 59 59 999.


(** An answer-less network with an empty browser storage. *)
Definition offline : Backend :=
  {| fetchCalendarEvents := fun _ _ _ => Rejected "Failed to fetch";
     fetchTimeBlocks := fun _ _ _ => Rejected "Failed to fetch";
     fetchSuggestions := fun _ _ => Rejected "Failed to fetch";
     fetchOptimize := fun _ _ => Rejected "Failed to fetch";
     storedUserToken := Resolved None;
     storedAuthToken := None |}.

End SchedulingSpec.

(** ** Vocabulary of the properties of the time block dialog *)
Module TimeBlockModalSpec.
Import TimeBlockModal.

(** The form is refused: no task is selected, or both times are set and
    the end is not strictly after the start. *)
Definition invalidForm (formData : FormData) : Prop :=
  noTaskSelected formData = true \/
  exists s e, start_time formData = Some s /\ end_time formData = Some e /\ e <= s.

End TimeBlockModalSpec.

(** ** Vocabulary of the properties of the prioritisation hook *)
Module TaskPrioritizationSpec.
Import TaskPrioritization.

(** The score a task is sorted by. *)
Definition scoreOf (t : Task) : Q := orZero (aiPriorityScore t).


(** The fields of a task that the function copies unchanged. *)
Definition core (t : Task) : Z * string := (id t, title t).

End TaskPrioritizationSpec.

(** ** [createOptimalTimeBlock] of the scheduling service *)
Module OptimalTimeBlock.
Import JsDate Async Scheduling.







Local Open Scope async_scope.


End OptimalTimeBlock.

(** ** Further vocabulary for the scheduling service *)
Module SchedulingSpec2.
Import JsDate Async Scheduling OptimalTimeBlock.

(** Hours added to the clock reading for a priority (lines 90-103). *)
Definition leadHours (p : Priority) : Z :=
  match p with
  | high => 1
  | medium => 24
  | _ => 72
  end.

(** The token [getOptimizedSchedule] sends, if it finds one: the argument,
    else the stored user token, else the stored auth token. *)
Definition effectiveToken (srv : Backend) (token : Token) : option Token :=
  if truthyToken token then Some token
  else
    match storedUserToken srv with
    | Resolved userToken =>
        let t := if truthyToken userToken then userToken else storedAuthToken srv in
        if truthyToken t then Some t else None
    | Rejected _ => None
    end.


End SchedulingSpec2.

(** ** The rest of the prioritisation hook and its use in the task list *)
Module PrioritizationHook.
Import Async TaskPrioritization.




(** The effect of [TaskList] (lines 272-279) that computes the list shown;
    [tasks] is [None] for a null task list. *)
Definition prioritizedTasksData (st : HookState) (tasks : option (list Task))
    : TasksArg :=
  match tasks with
  | Some l =>
      if (0 <? length l)%nat && aiPrioritizationEnabled st
      then applyAIPrioritization st (TaskArray l)
      else TaskArray l
  | None => TaskArray []
  end.

(** A prioritized task together with its [title]. *)
Record TitledTask : Type := mkTitledTask {
  tp_title : string;
  tp_task : PrioritizedTask
}.

(** [s.includes(sub)]. *)
Fixpoint includes (s sub : string) : bool :=
  if String.prefix sub s then true
  else
    match s with
    | EmptyString => false
    | String _ s' => includes s' sub
    end.

(** Lines 61-65. *)
Definition levelOf (score : Q) : Scheduling.Priority :=
  if Qle_bool 80 score then Scheduling.urgent
  else if Qle_bool 60 score then Scheduling.high
  else if Qle_bool 40 score then Scheduling.medium
  else Scheduling.low.

Section GetPrioritySuggestion.
(** [text.toLowerCase().trim()]. *)
Variable normalizeText : string -> string.

(** The test of lines 57-58. *)
Definition titlesMatch (title : string) (task : TitledTask) : bool :=
  includes (normalizeText (tp_title task)) (normalizeText title)
  || includes (normalizeText title) (normalizeText (tp_title task)).

(** The loop of lines 56-67. *)
Fixpoint firstMatch (title : string) (tasks : list TitledTask)
    : option Scheduling.Priority :=
  match tasks with
  | [] => None
  | task :: rest =>
      if titlesMatch title task
      then Some (levelOf (orZero (ai_priority_score (tp_task task))))
      else firstMatch title rest
  end.

(** [getPrioritySuggestion(title, description)]. *)
Definition getPrioritySuggestion (prioritizedTasks : list TitledTask)
    (title description : string) : option Scheduling.Priority :=
  if String.eqb title "" || (length prioritizedTasks =? 0)%nat then None
  else firstMatch title prioritizedTasks.

End GetPrioritySuggestion.

End PrioritizationHook.

(** ** Further vocabulary for the prioritisation hook *)
Module PrioritizationSpec2.

(** The position of a priority level, low first. *)
Definition levelRank (p : Scheduling.Priority) : Z :=
  match p with
  | Scheduling.low => 0
  | Scheduling.medium => 1
  | Scheduling.high => 2
  | Scheduling.urgent => 3
  end.

(** The normalisation restricted to text that is already in lower case and
    has no outer blanks. *)
Definition plainText (s : string) : string := s.

End PrioritizationSpec2.

(** ** The other handlers of the time block dialog *)
Module TimeBlockActions.
Import Async TimeBlockModal.

Record DeleteRequest : Type := mkDeleteRequest {
  del_token : string;
  del_timeBlockId : Z
}.

(** [handleDelete()] (lines 140-168): the interface state it leaves and
    the delete requests it sends.  [confirmed] is the answer of
    [window.confirm], [api r] the outcome of the request [r]. *)
Definition handleDelete (props : Props) (confirmed : bool)
    (api : DeleteRequest -> Outcome unit) (ui : Ui) : Ui * list DeleteRequest :=
  if confirmed then
    let ui := setLoading true ui in
    match timeBlock props with
    | None =>
        (* reading [timeBlock.id] of null throws before any request *)
        let ui := toast (errorToast "Failed to delete time block. Please try again.") ui in
        (setLoading false ui, [])
    | Some timeBlockId =>
        let r := {| del_token := token props; del_timeBlockId := timeBlockId |} in
        match api r with
        | Resolved _ =>
            let ui := afterSaved props "Time block deleted successfully" ui in
            (setLoading false ui, [r])
        | Rejected _ =>
            let ui := toast (errorToast "Failed to delete time block. Please try again.") ui in
            (setLoading false ui, [r])
        end
    end
  else (ui, []).

(** [{ ...formData, status: 'in_progress', actual_start_time: new Date() }]. *)
Definition startedData (formData : FormData) (now : Z) : FormData :=
  {| task_id := task_id formData;
     start_time := start_time formData;
     end_time := end_time formData;
     status := "in_progress";
     notes := notes formData;
     actual_start_time := Some now;
     actual_end_time := actual_end_time formData |}.

(** [{ ...formData, status: 'completed', actual_end_time: new Date() }]. *)
Definition completedData (formData : FormData) (now : Z) : FormData :=
  {| task_id := task_id formData;
     start_time := start_time formData;
     end_time := end_time formData;
     status := "completed";
     notes := notes formData;
     actual_start_time := actual_start_time formData;
     actual_end_time := Some now |}.

(** The common shape of [handleStart] and [handleComplete]: no [finally],
    [setLoading(false)] only in the [catch]. *)
Definition updateWith (props : Props) (data : FormData)
    (done failed : string) (api : Request -> Outcome unit) (ui : Ui) : Ui :=
  let ui := setLoading true ui in
  match timeBlock props with
  | None =>
      (* reading [timeBlock.id] of null throws before any request *)
      let ui := toast (errorToast failed) ui in
      setLoading false ui
  | Some timeBlockId =>
      let r := UpdateTimeBlock (token props) timeBlockId data in
      let ui := send r ui in
      match api r with
      | Resolved _ => afterSaved props done ui
      | Rejected _ =>
          let ui := toast (errorToast failed) ui in
          setLoading false ui
      end
  end.

(** [handleStart()] (lines 171-200); [now] is the value of [new Date()]. *)
Definition handleStart (props : Props) (formData : FormData) (now : Z)
    (api : Request -> Outcome unit) (ui : Ui) : Ui :=
  updateWith props (startedData formData now)
    "Time block started" "Failed to start time block. Please try again." api ui.

(** [handleComplete()] (lines 203-232). *)
Definition handleComplete (props : Props) (formData : FormData) (now : Z)
    (api : Request -> Outcome unit) (ui : Ui) : Ui :=
  updateWith props (completedData formData now)
    "Time block completed" "Failed to complete time block. Please try again." api ui.

End TimeBlockActions.

(** ** The calendar page: optimising and applying a schedule *)
Module CalendarPage.
Import Async Scheduling.

Inductive TaskStatus : Type := pending | in_progress | completed | cancelled.

(** A task of the page: what the scheduling service reads of it, its
    status and its scheduled start ([None] when null or absent). *)
Record PageTask : Type := mkPageTask {
  task : Task;
  status : TaskStatus;
  scheduled_start_time : option Z
}.

Record Page : Type := mkPage {
  optimizing : bool;
  showOptimizeDialog : bool;
  optimizedSchedule : list ScheduleEntry;
  applyingSchedule : bool;
  calendarRefreshCounter : nat;
  todayTimeBlocks : Json;
  toasts : list TimeBlockModal.Toast
}.

Definition setOptimizing (b : bool) (page : Page) : Page :=
  {| optimizing := b; showOptimizeDialog := showOptimizeDialog page;
     optimizedSchedule := optimizedSchedule page;
     applyingSchedule := applyingSchedule page;
     calendarRefreshCounter := calendarRefreshCounter page;
     todayTimeBlocks := todayTimeBlocks page; toasts := toasts page |}.

Definition setApplyingSchedule (b : bool) (page : Page) : Page :=
  {| optimizing := optimizing page; showOptimizeDialog := showOptimizeDialog page;
     optimizedSchedule := optimizedSchedule page;
     applyingSchedule := b;
     calendarRefreshCounter := calendarRefreshCounter page;
     todayTimeBlocks := todayTimeBlocks page; toasts := toasts page |}.

Definition setShowOptimizeDialog (b : bool) (page : Page) : Page :=
  {| optimizing := optimizing page; showOptimizeDialog := b;
     optimizedSchedule := optimizedSchedule page;
     applyingSchedule := applyingSchedule page;
     calendarRefreshCounter := calendarRefreshCounter page;
     todayTimeBlocks := todayTimeBlocks page; toasts := toasts page |}.

Definition setOptimizedSchedule (schedule : list ScheduleEntry) (page : Page) : Page :=
  {| optimizing := optimizing page; showOptimizeDialog := showOptimizeDialog page;
     optimizedSchedule := schedule;
     applyingSchedule := applyingSchedule page;
     calendarRefreshCounter := calendarRefreshCounter page;
     todayTimeBlocks := todayTimeBlocks page; toasts := toasts page |}.

Definition refreshed (updatedTimeBlocks : Json) (page : Page) : Page :=
  {| optimizing := optimizing page; showOptimizeDialog := showOptimizeDialog page;
     optimizedSchedule := optimizedSchedule page;
     applyingSchedule := applyingSchedule page;
     calendarRefreshCounter := S (calendarRefreshCounter page);
     todayTimeBlocks := updatedTimeBlocks; toasts := toasts page |}.

Definition toast (t : TimeBlockModal.Toast) (page : Page) : Page :=
  {| optimizing := optimizing page; showOptimizeDialog := showOptimizeDialog page;
     optimizedSchedule := optimizedSchedule page;
     applyingSchedule := applyingSchedule page;
     calendarRefreshCounter := calendarRefreshCounter page;
     todayTimeBlocks := todayTimeBlocks page; toasts := toasts page ++ [t] |}.

(** The filter of lines 625-628. *)
Definition toSchedule (t : PageTask) : bool :=
  match status t with
  | pending | in_progress =>
      match scheduled_start_time t with
      | Some _ => false
      | None => true
      end
  | _ => false
  end.

Definition noTasksToast : TimeBlockModal.Toast :=
  {| TimeBlockModal.toast_title := "No Tasks to Schedule";
     TimeBlockModal.toast_description :=
       "There are no pending tasks without scheduled times.";
     TimeBlockModal.toast_destructive := false |}.

Definition optimizeFailedToast : TimeBlockModal.Toast :=
  {| TimeBlockModal.toast_title := "Error";
     TimeBlockModal.toast_description := "Failed to optimize schedule.";
     TimeBlockModal.toast_destructive := true |}.

Local Open Scope async_scope.

(** [result.schedule]: reading a property of the payload [null] throws a
    [TypeError]; [payloadSchedule data] is the [schedule] field of another
    payload. *)
Definition scheduleOf (payloadSchedule : Json -> list ScheduleEntry)
    (result : ScheduleResult) : Outcome (list ScheduleEntry) :=
  match result with
  | LocalSchedule schedule => Resolved schedule
  | RemoteSchedule data =>
      if isNull data
      then Rejected "Cannot read properties of null (reading 'schedule')"
      else Resolved (payloadSchedule data)
  end.

(** [optimizeSchedule()] (lines 620-657). *)
Definition optimizeSchedule (payloadSchedule : Json -> list ScheduleEntry)
    (srv : Backend) (token : Token) (tasks : list PageTask) (page : Page) : M Page :=
  page' <- tryCatch
    (let page := setOptimizing true page in
     let tasksToSchedule := List.filter toSchedule tasks in
     if (length tasksToSchedule =? 0)%nat then ret (toast noTasksToast page)
     else
       result <- getOptimizedSchedule srv token (map task tasksToSchedule) ;;
       schedule <- await (scheduleOf payloadSchedule result) ;;
       ret (setShowOptimizeDialog true (setOptimizedSchedule schedule page)))
    (fun error => ret (toast optimizeFailedToast (setOptimizing true page))) ;;
  ret (setOptimizing false page').

(** The body of a create request of [applyOptimizedSchedule]. *)
Record ScheduledBlock : Type := mkScheduledBlock {
  sb_task_id : Z;
  sb_start_time : Z;
  sb_end_time : Z;
  sb_status : string;
  sb_notes : string
}.

(** Lines 667-673. *)
Definition blockOf (item : ScheduleEntry) : ScheduledBlock :=
  {| sb_task_id := task_id item;
     sb_start_time := entry_start_time item;
     sb_end_time := entry_end_time item;
     sb_status := "scheduled";
     sb_notes := ("AI-optimized schedule: " +:+ entry_reasoning item)%string |}.

(** The loop of lines 665-674: whether it ran through, and the requests
    sent. *)
Fixpoint createAll (create : ScheduledBlock -> Outcome unit)
    (items : list ScheduleEntry) : Outcome unit * list ScheduledBlock :=
  match items with
  | [] => (Resolved tt, [])
  | item :: rest =>
      let r := blockOf item in
      match create r with
      | Resolved _ =>
          let '(o, sent) := createAll create rest in (o, r :: sent)
      | Rejected e => (Rejected e, [r])
      end
  end.

Definition appliedToast (n : nat) : TimeBlockModal.Toast :=
  {| TimeBlockModal.toast_title := "Schedule Applied";
     TimeBlockModal.toast_description :=
       ("Successfully created " +:+ pretty (Z.of_nat n) +:+ " time blocks.")%string;
     TimeBlockModal.toast_destructive := false |}.

Definition applyFailedToast : TimeBlockModal.Toast :=
  {| TimeBlockModal.toast_title := "Error";
     TimeBlockModal.toast_description := "Failed to apply optimized schedule.";
     TimeBlockModal.toast_destructive := true |}.

(** [applyOptimizedSchedule()] (lines 660-699): the page it leaves and the
    create requests it sends.  [fetchToday] is the outcome of
    [fetchTodayTimeBlocks(token)]. *)
Definition applyOptimizedSchedule (create : ScheduledBlock -> Outcome unit)
    (fetchToday : Outcome Json) (page : Page) : Page * list ScheduledBlock :=
  let page1 := setApplyingSchedule true page in
  let '(o, sent) := createAll create (optimizedSchedule page) in
  let page2 :=
    match o with
    | Resolved _ =>
        let page2 := setShowOptimizeDialog false page1 in
        match fetchToday with
        | Resolved updatedTimeBlocks =>
            toast (appliedToast (length (optimizedSchedule page)))
              (refreshed updatedTimeBlocks page2)
        | Rejected _ => toast applyFailedToast page2
        end
    | Rejected _ => toast applyFailedToast page1
    end in
  (setApplyingSchedule false page2, sent).

End CalendarPage.

(** ** The form of the time block dialog before submission *)
Module TimeBlockForm.
Import TimeBlockModal.

(** The initial form state (lines 29-37); [now1] and [now2] are the values
    of the two [new Date()] of lines 31 and 32. *)
Definition initialFormData (now1 now2 : Z) : FormData :=
  {| task_id := None;
     start_time := Some now1;
     end_time := Some (now2 + 60 * 60 * 1000);
     status := "scheduled";
     notes := "";
     actual_start_time := None;
     actual_end_time := None |}.

(** [handleSelectChange('task_id', value)] (lines 73-75). *)
Definition selectTask (value : Z) (formData : FormData) : FormData :=
  {| task_id := Some value;
     start_time := start_time formData;
     end_time := end_time formData;
     status := status formData;
     notes := notes formData;
     actual_start_time := actual_start_time formData;
     actual_end_time := actual_end_time formData |}.

(** [handleDateChange('end_time', date)] (lines 77-79). *)
Definition setEndTime (date : option Z) (formData : FormData) : FormData :=
  {| task_id := task_id formData;
     start_time := start_time formData;
     end_time := date;
     status := status formData;
     notes := notes formData;
     actual_start_time := actual_start_time formData;
     actual_end_time := actual_end_time formData |}.

End TimeBlockForm.

(** ** Further vocabulary for the local schedule *)
Module SchedulingSpec3.
Import Scheduling.

(** [t] with another deadline. *)
Definition withDeadline (d : option Z) (t : Task) : Task :=
  {| id := id t; title := title t; priority := priority t;
     deadline := d; estimated_duration := estimated_duration t;
     created_at := created_at t |}.

End SchedulingSpec3.

(** * Properties *)

(** ** Numbers *)
Module JsNumberFacts.
Import JsNumber.

Lemma roundToDouble_small x : Z.abs x <= 2 ^ 53 -> roundToDouble x = x.
Proof.
  intros H. unfold roundToDouble.
  destruct (Z.leb_spec (Z.abs x) (2 ^ 53)); [reflexivity|lia].
Qed.

Lemma roundToDouble_large x : 2 ^ 53 < Z.abs x -> 2 ^ 53 <= Z.abs (roundToDouble x).
Proof.
  intros H. unfold roundToDouble.
  destruct (Z.leb_spec (Z.abs x) (2 ^ 53)) as [Hle|_]; [lia|].
  set (a := Z.abs x) in *.
  assert (Ha : 0 < a) by lia.
  assert (H53 : 53 <= Z.log2 a) by (apply Z.log2_le_pow2; lia).
  set (e := Z.log2 a - 52).
  assert (He : 1 <= e) by (unfold e; lia).
  assert (Hp : 2 <= 2 ^ e).
  { change 2 with (2 ^ 1) at 1. apply Z.pow_le_mono_r; lia. }
  assert (Hq : 2 ^ 52 <= a / 2 ^ e).
  { apply Z.div_le_lower_bound; [lia|].
    rewrite <- Z.pow_add_r by lia.
    replace (e + 52) with (Z.log2 a) by (unfold e; lia).
    apply Z.log2_spec. exact Ha. }
  set (q := a / 2 ^ e) in *.
  set (q' := if a mod 2 ^ e <? 2 ^ (e - 1) then q
             else if 2 ^ (e - 1) <? a mod 2 ^ e then q + 1
             else if Z.even q then q else q + 1).
  assert (Hq' : q <= q').
  { unfold q'. destruct (_ <? _); [lia|]. destruct (_ <? _); [lia|].
    destruct (Z.even q); lia. }
  assert (Hbig : 2 ^ 53 <= q' * 2 ^ e).
  { change (2 ^ 53) with (2 ^ 52 * 2). apply Z.mul_le_mono_nonneg; lia. }
  destruct x as [|p|p]; simpl Z.sgn; lia.
Qed.


(** *** Reading back the decimal text of a number *)








End JsNumberFacts.

(** ** Date arithmetic *)
Module JsDateFacts.
Import JsNumber JsDate JsNumberFacts.

(** Linear arithmetic with division and remainder by constants. *)
Ltac date_lia := unfold_date; Z.to_euclidean_division_equations; lia.

Lemma setHours_getHours_plus t k :
  setHours t (getHours t + k) = t + k * msPerHour.
Proof. date_lia. Qed.

Lemma setMinutes_getMinutes_plus t d :
  setMinutes t (getMinutes t + d) = t + d * msPerMinute.
Proof. date_lia. Qed.

Lemma setDate_getDate_plus t k : setDate t (getDate t + k) = t + k * msPerDay.
Proof. date_lia. Qed.

Lemma getHours_range t : 0 <= getHours t < 24.
Proof. date_lia. Qed.

Lemma getDay_range t : 0 <= getDay t < 7.
Proof. date_lia. Qed.

Lemma getHours_setHours4 t h :
  0 <= h < 24 -> getHours (setHours4 t h 0 0 0) = h.
Proof. intros. date_lia. Qed.

Lemma getHours_setDate_plus t k : getHours (setDate t (getDate t + k)) = getHours t.
Proof. rewrite setDate_getDate_plus. date_lia. Qed.

Lemma getDay_setDate_plus t k :
  getDay (setDate t (getDate t + k)) = (getDay t + k) mod 7.
Proof. rewrite setDate_getDate_plus. date_lia. Qed.

(** *** The range of time values *)

Lemma TimeClip_valid t : valid t -> TimeClip t = Some t.
Proof.
  unfold valid, TimeClip. intros H.
  destruct (Z.leb_spec (Z.abs t) maxTime); [reflexivity|lia].
Qed.

Lemma TimeClip_invalid t : ~ valid t -> TimeClip t = None.
Proof.
  unfold valid, TimeClip. intros H.
  destruct (Z.leb_spec (Z.abs t) maxTime); [contradiction|reflexivity].
Qed.

Lemma TimeClip_Some t s : TimeClip t = Some s -> s = t /\ valid t.
Proof.
  unfold valid, TimeClip.
  destruct (Z.leb_spec (Z.abs t) maxTime) as [Hv|Hv]; [|discriminate].
  intros Heq. injection Heq as <-. auto.
Qed.

Lemma TimeClip_round x : TimeClip (roundToDouble x) = TimeClip x.
Proof.
  destruct (Z.le_gt_cases (Z.abs x) (2 ^ 53)) as [H|H].
  - now rewrite roundToDouble_small.
  - pose proof (roundToDouble_large x H) as Hr.
    rewrite !TimeClip_invalid; [reflexivity| |]; unfold valid, maxTime; lia.
Qed.

End JsDateFacts.

(** ** [Date] objects *)
Module DateObjectFacts.
Import JsNumber JsDate JsNumberFacts JsDateFacts.

Lemma MakeTime_exact h m s ms :
  Z.abs h <= 1000 -> Z.abs m <= 2 * 10 ^ 9 -> Z.abs s <= 1000 -> Z.abs ms <= 1000 ->
  DateObject.MakeTime h m s ms = MakeTime h m s ms.
Proof.
  intros Hh Hm Hs Hms. unfold DateObject.MakeTime, MakeTime.
  unfold msPerHour, msPerMinute, msPerSecond.
  rewrite (roundToDouble_small (h * 3600000)) by lia.
  rewrite (roundToDouble_small (m * 60000)) by lia.
  rewrite (roundToDouble_small (s * 1000)) by lia.
  rewrite (roundToDouble_small (h * 3600000 + m * 60000)) by lia.
  rewrite (roundToDouble_small (h * 3600000 + m * 60000 + s * 1000)) by lia.
  rewrite roundToDouble_small by lia. reflexivity.
Qed.

Lemma TimeClip_MakeDate day time :
  Z.abs time <= 2 * 10 ^ 14 ->
  TimeClip (DateObject.MakeDate day time) = TimeClip (MakeDate day time).
Proof.
  intros Ht. unfold DateObject.MakeDate, MakeDate. rewrite TimeClip_round.
  destruct (Z.le_gt_cases (Z.abs (day * msPerDay)) (2 ^ 53)) as [H|H].
  - now rewrite roundToDouble_small.
  - pose proof (roundToDouble_large _ H) as Hr.
    rewrite !TimeClip_invalid; [reflexivity| |]; unfold valid, maxTime; lia.
Qed.

Lemma getDate_bound t : Z.abs (getDate t) <= 10 ^ 6.
Proof. unfold getDate. cbv zeta. Z.to_euclidean_division_equations. lia. Qed.

(** [d.setHours(d.getHours() + k)]. *)
Lemma setHours_plus t k :
  Z.abs k <= 100 ->
  DateObject.setHours (Some t) (add (DateObject.getHours (Some t)) (Num k))
  = TimeClip (t + k * msPerHour).
Proof.
  intros Hk. unfold DateObject.setHours, DateObject.getHours, add.
  pose proof (getHours_range t) as Hh.
  rewrite roundToDouble_small by lia.
  rewrite MakeTime_exact by date_lia.
  rewrite TimeClip_MakeDate by date_lia.
  fold (setHours t (getHours t + k)). now rewrite setHours_getHours_plus.
Qed.

(** [d.setHours(d.getHours() - k)]. *)
Lemma setHours_minus t k :
  Z.abs k <= 100 ->
  DateObject.setHours (Some t) (sub (DateObject.getHours (Some t)) (Num k))
  = TimeClip (t - k * msPerHour).
Proof.
  intros Hk. unfold DateObject.setHours, DateObject.getHours, sub.
  pose proof (getHours_range t) as Hh.
  rewrite roundToDouble_small by lia.
  rewrite MakeTime_exact by date_lia.
  rewrite TimeClip_MakeDate by date_lia.
  f_equal. date_lia.
Qed.

Lemma setHours4_exact t h m s ms :
  0 <= h < 24 -> 0 <= m < 60 -> 0 <= s < 60 -> 0 <= ms < 1000 ->
  DateObject.setHours4 (Some t) h m s ms = TimeClip (setHours4 t h m s ms).
Proof.
  intros Hh Hm Hs Hms. unfold DateObject.setHours4.
  rewrite MakeTime_exact by lia.
  rewrite TimeClip_MakeDate by date_lia. reflexivity.
Qed.

(** [d.setDate(d.getDate() + k)]. *)
Lemma setDate_plus t k :
  Z.abs k <= 100 ->
  DateObject.setDate (Some t) (add (DateObject.getDate (Some t)) (Num k))
  = TimeClip (t + k * msPerDay).
Proof.
  intros Hk. unfold DateObject.setDate, DateObject.getDate, add.
  pose proof (getDate_bound t) as Hd.
  rewrite roundToDouble_small by lia.
  rewrite TimeClip_MakeDate by date_lia.
  fold (setDate t (getDate t + k)). now rewrite setDate_getDate_plus.
Qed.

(** [d.setMinutes(d.getMinutes() + m)]. *)
Lemma setMinutes_plus t m :
  Z.abs m <= 10 ^ 9 ->
  DateObject.setMinutes (Some t) (add (DateObject.getMinutes (Some t)) (Num m))
  = TimeClip (t + m * msPerMinute).
Proof.
  intros Hm. unfold DateObject.setMinutes, DateObject.getMinutes, add.
  assert (Hg : 0 <= getMinutes t < 60) by date_lia.
  rewrite roundToDouble_small by lia.
  rewrite MakeTime_exact by (pose proof (getHours_range t); date_lia).
  rewrite TimeClip_MakeDate by (pose proof (getHours_range t); date_lia).
  fold (setMinutes t (getMinutes t + m)). now rewrite setMinutes_getMinutes_plus.
Qed.

End DateObjectFacts.
(** ** The stable sort *)
Module JsSortFacts.
Import JsSort.

Section Facts.
Context {A : Type} (comparefn : A -> A -> comparison).

Lemma insert_Permutation x l : Permutation (insert comparefn x l) (x :: l).
Proof.
  induction l as [|y l IH]; simpl; [reflexivity|].
  destruct (comparefn x y); try reflexivity.
  rewrite IH. apply perm_swap.
Qed.

Lemma sort_Permutation l : Permutation (sort comparefn l) l.
Proof.
  induction l as [|x l IH]; simpl; [reflexivity|].
  unfold sort in *. simpl. rewrite insert_Permutation. now constructor.
Qed.


Lemma sort_cons x l : sort comparefn (x :: l) = insert comparefn x (sort comparefn l).
Proof. reflexivity. Qed.

(** On a family [P] of values where the comparator is consistent (total
    and transitive), the result is sorted. *)
Section Sorted.
Variable P : A -> Prop.
Hypothesis total : forall x y, P x -> P y -> comparefn x y = Gt -> notAfter comparefn y x.
Hypothesis trans : forall x y z, P x -> P y -> P z ->
  notAfter comparefn x y -> notAfter comparefn y z -> notAfter comparefn x z.

Lemma insert_StronglySorted x l :
  P x -> Forall P l -> StronglySorted (notAfter comparefn) l ->
  StronglySorted (notAfter comparefn) (insert comparefn x l).
Proof.
  intros Px Pl Hs. induction Hs as [|y l Hs IH Hy]; simpl.
  - repeat constructor.
  - inversion Pl as [|? ? Py Pl']; subst.
    destruct (comparefn x y) eqn:E.
    + constructor; [now constructor|]. constructor.
      * unfold notAfter. congruence.
      * rewrite Forall_forall in *. intros z Hz.
        apply (trans x y z); auto. unfold notAfter. congruence.
    + constructor; [now constructor|]. constructor.
      * unfold notAfter. congruence.
      * rewrite Forall_forall in *. intros z Hz.
        apply (trans x y z); auto. unfold notAfter. congruence.
    + constructor; [auto|].
      eapply Permutation_Forall; [symmetry; apply insert_Permutation|].
      constructor; [apply total; auto | exact Hy].
Qed.

Lemma sort_StronglySorted l :
  Forall P l -> StronglySorted (notAfter comparefn) (sort comparefn l).
Proof.
  induction l as [|x l IH]; intros Hl.
  - constructor.
  - inversion Hl; subst. rewrite sort_cons.
    apply insert_StronglySorted; auto.
    eapply Permutation_Forall; [symmetry; apply sort_Permutation|]. assumption.
Qed.
End Sorted.

(** Stability: values none of which must go after another keep their
    input order. *)
Section Stable.
Variable p : A -> bool.
Hypothesis tied : forall x y, p x = true -> p y = true -> comparefn x y <> Gt.


End Stable.
End Facts.


End JsSortFacts.

(** ** The local scheduling suggestion *)

(** ** The local suggestion *)
Module SchedulingFacts.
Import JsNumber JsDate JsNumberFacts JsDateFacts DateObjectFacts.
Import Async Scheduling SchedulingSpec SchedulingSpec2.

(** *** The steps on time values *)

Lemma priorityStart_eq now taskData :
  priorityStart now taskData = now + leadHours (priority taskData) * msPerHour.
Proof.
  unfold priorityStart, leadHours.
  destruct (priority taskData); apply setHours_getHours_plus.
Qed.

Lemma workingHoursAdjust_hours s : startsInWorkingHours (workingHoursAdjust s).
Proof.
  unfold workingHoursAdjust, startsInWorkingHours.
  destruct (Z.ltb_spec (getHours s) 9); [date_lia|].
  destruct (Z.geb_spec (getHours s) 17); [date_lia|lia].
Qed.

Lemma workingHoursAdjust_bounds s :
  s <= workingHoursAdjust s <= s + 16 * msPerHour.
Proof.
  unfold workingHoursAdjust.
  destruct (Z.ltb_spec (getHours s) 9); [date_lia|].
  destruct (Z.geb_spec (getHours s) 17); [date_lia|unfold msPerHour; lia].
Qed.

Lemma endAdjust_spec d s :
  startsInWorkingHours s ->
  startsInWorkingHours (fst (endAdjust d s)) /\
  snd (endAdjust d s) = fst (endAdjust d s) + d * msPerMinute.
Proof.
  intros Hs. unfold endAdjust.
  destruct (_ >=? 17); [destruct (_ && _)|]; simpl;
    rewrite ?setMinutes_getMinutes_plus; (split; [|reflexivity]); auto.
  unfold startsInWorkingHours. date_lia.
Qed.

Lemma endAdjust_bounds d s :
  startsInWorkingHours s ->
  s <= fst (endAdjust d s) <= s + 24 * msPerHour.
Proof.
  intros Hs. unfold endAdjust, startsInWorkingHours in *.
  destruct (_ >=? 17); [destruct (_ && _)|]; simpl;
    try (unfold msPerHour; lia); date_lia.
Qed.

Lemma weekendAdjust_spec d se :
  startsInWorkingHours (fst se) ->
  snd se = fst se + d * msPerMinute ->
  startsInWorkingHours (fst (weekendAdjust d se)) /\
  onWeekday (fst (weekendAdjust d se)) /\
  snd (weekendAdjust d se) = fst (weekendAdjust d se) + d * msPerMinute.
Proof.
  destruct se as [s e]. simpl. intros Hs He.
  unfold weekendAdjust, startsInWorkingHours, onWeekday in *.
  pose proof (getDay_range s) as Hr.
  destruct (Z.eqb_spec (getDay s) 0) as [E0|E0];
    [|destruct (Z.eqb_spec (getDay s) 6) as [E6|E6]]; simpl;
    rewrite ?setMinutes_getMinutes_plus, ?getHours_setDate_plus, ?getDay_setDate_plus.
  - rewrite E0. change ((0 + 1) mod 7) with 1. repeat split; lia.
  - rewrite E6. change ((6 + 2) mod 7) with 1. repeat split; lia.
  - repeat split; lia.
Qed.

Lemma weekendAdjust_bounds d se :
  fst se <= fst (weekendAdjust d se) <= fst se + 48 * msPerHour.
Proof.
  destruct se as [s e]. unfold weekendAdjust. simpl.
  destruct (getDay s =? 0); [|destruct (getDay s =? 6)]; simpl;
    rewrite ?setDate_getDate_plus; unfold msPerDay, msPerHour; lia.
Qed.

Lemma slot_spec d now taskData :
  startsInWorkingHours (fst (slot d now taskData)) /\
  onWeekday (fst (slot d now taskData)) /\
  snd (slot d now taskData) = fst (slot d now taskData) + d * msPerMinute.
Proof.
  unfold slot.
  destruct (endAdjust_spec d
              (workingHoursAdjust (deadlineAdjust taskData (priorityStart now taskData)))
              (workingHoursAdjust_hours _)) as [H1 H2].
  now apply weekendAdjust_spec.
Qed.

Lemma startsInWorkingHours_time t :
  startsInWorkingHours t <-> 9 * msPerHour <= TimeWithinDay t < 17 * msPerHour.
Proof. unfold startsInWorkingHours. split; intros; date_lia. Qed.

Lemma endAdjust_same_day d s :
  startsInWorkingHours s -> 0 <= d <= 420 ->
  Day (snd (endAdjust d s)) = Day (fst (endAdjust d s)) /\
  TimeWithinDay (snd (endAdjust d s)) < 17 * msPerHour + 31 * msPerMinute.
Proof.
  intros Hs Hd. unfold endAdjust, startsInWorkingHours in *.
  rewrite setMinutes_getMinutes_plus.
  destruct (Z.geb_spec (getHours (s + d * msPerMinute)) 17) as [H17|H17].
  - destruct (Z.eqb_spec (getHours (s + d * msPerMinute)) 17) as [E|E]; simpl.
    + destruct (Z.leb_spec (getMinutes (s + d * msPerMinute)) 30) as [M|M]; simpl.
      * date_lia.
      * rewrite setMinutes_getMinutes_plus. date_lia.
    + rewrite setMinutes_getMinutes_plus. date_lia.
  - simpl. date_lia.
Qed.

Lemma weekendAdjust_same_day d se :
  snd se = fst se + d * msPerMinute ->
  Day (snd se) = Day (fst se) ->
  Day (snd (weekendAdjust d se)) = Day (fst (weekendAdjust d se)) /\
  TimeWithinDay (snd (weekendAdjust d se)) = TimeWithinDay (snd se).
Proof.
  destruct se as [s e]. simpl. intros He Hday. subst e.
  unfold weekendAdjust.
  destruct (getDay s =? 0); [|destruct (getDay s =? 6)]; simpl;
    rewrite ?setMinutes_getMinutes_plus, ?setDate_getDate_plus; date_lia.
Qed.

(** *** The steps on [Date] objects *)

Lemma startByPriority_eq now taskData :
  startByPriority (DateObject.ofTimeValue now) taskData =
  match TimeClip now with
  | Some t => TimeClip (priorityStart t taskData)
  | None => None
  end.
Proof.
  unfold DateObject.ofTimeValue, startByPriority.
  destruct (TimeClip now) as [t|].
  - rewrite priorityStart_eq.
    destruct (priority taskData); rewrite setHours_plus by lia; reflexivity.
  - destruct (priority taskData); reflexivity.
Qed.

Lemma ltb_invalid d : DateObject.ltb d None = false.
Proof. destruct d; reflexivity. Qed.

Lemma beforeDeadline_None taskData : beforeDeadline taskData None = None.
Proof.
  unfold beforeDeadline. destruct (deadline taskData); [|reflexivity].
  now rewrite ltb_invalid.
Qed.

(** The deadline of lines 107-108, when it is a valid [Date]. *)
Lemma deadline_eq d :
  DateObject.setHours4 (DateObject.ofTimeValue d) 23 59 59 999 =
  match TimeClip d with
  | Some t => TimeClip (endOfDay t)
  | None => None
  end.
Proof.
  unfold DateObject.ofTimeValue, endOfDay.
  destruct (TimeClip d) as [t|]; [|reflexivity].
  now rewrite setHours4_exact by lia.
Qed.

Lemma beforeDeadline_valid taskData p q :
  beforeDeadline taskData (Some p) = Some q -> valid p -> valid q.
Proof.
  unfold beforeDeadline. intros H Hp.
  destruct (deadline taskData) as [d|]; [|now injection H as <-].
  rewrite deadline_eq in H.
  destruct (TimeClip d) as [t|]; [|now injection H as <-].
  destruct (TimeClip (endOfDay t)) as [dl|]; [|now injection H as <-].
  destruct (DateObject.ltb (Some dl) (Some p)); [|now injection H as <-].
  destruct (priority taskData); rewrite setHours_minus in H by lia;
    apply TimeClip_Some in H as [-> Hv]; exact Hv.
Qed.


Lemma nextDayAtNine_eq t :
  nextDayAtNine (Some t) =
  match TimeClip (t + msPerDay) with
  | Some u => TimeClip (setHours4 u 9 0 0 0)
  | None => None
  end.
Proof.
  unfold nextDayAtNine. rewrite setDate_plus by lia.
  replace (t + 1 * msPerDay) with (t + msPerDay) by lia.
  destruct (TimeClip (t + msPerDay)) as [u|]; [|reflexivity].
  now rewrite setHours4_exact by lia.
Qed.

Lemma nextDayAtNine_Some t s :
  nextDayAtNine (Some t) = Some s ->
  s = setHours4 (t + msPerDay) 9 0 0 0 /\ valid s.
Proof.
  rewrite nextDayAtNine_eq.
  destruct (TimeClip (t + msPerDay)) as [u|] eqn:Hu; [|discriminate].
  apply TimeClip_Some in Hu as [-> _]. intros H.
  apply TimeClip_Some in H as [-> Hv]. auto.
Qed.

Lemma inWorkingHours_None : inWorkingHours None = None.
Proof. reflexivity. Qed.

Lemma inWorkingHours_Some q s :
  inWorkingHours (Some q) = Some s ->
  s = workingHoursAdjust q /\ (valid q -> valid s).
Proof.
  unfold inWorkingHours, workingHoursAdjust.
  change (DateObject.getHours (Some q)) with (Num (getHours q)).
  change (ltb (Num (getHours q)) (Num 9)) with (getHours q <? 9).
  change (geb (Num (getHours q)) (Num 17)) with (getHours q >=? 17).
  destruct (getHours q <? 9).
  - rewrite setHours4_exact by lia. intros H.
    apply TimeClip_Some in H as [-> Hv]. auto.
  - destruct (getHours q >=? 17).
    + intros H. apply nextDayAtNine_Some in H as [-> Hv].
      rewrite setDate_getDate_plus.
      replace (q + 1 * msPerDay) with (q + msPerDay) by lia. auto.
    + intros H. injection H as <-. auto.
Qed.

Lemma endAfter_None duration : endAfter duration None = None.
Proof. reflexivity. Qed.

Lemma endAfter_eq d t :
  Z.abs d <= 10 ^ 9 ->
  endAfter (Num d) (Some t) = TimeClip (t + d * msPerMinute).
Proof. intros Hd. unfold endAfter. now rewrite setMinutes_plus. Qed.

Lemma withEnd_None duration : withEnd duration None = (None, None).
Proof. reflexivity. Qed.

Lemma offWeekend_None duration e : offWeekend duration (None, e) = (None, e).
Proof. reflexivity. Qed.

(** The start of lines 139-155 is the start it is given or 09:00 of the
    next day, and the end is computed from the start that is kept. *)
Lemma withEnd_start duration s0 st en :
  withEnd duration (Some s0) = (Some st, en) ->
  startsInWorkingHours s0 ->
  startsInWorkingHours st /\
  s0 <= st <= s0 + 24 * msPerHour /\
  (valid s0 -> valid st) /\
  en = endAfter duration (Some st).
Proof.
  unfold withEnd. intros H Hs0.
  assert (Hkeep : (Some s0, endAfter duration (Some s0)) = (Some st, en) ->
                  startsInWorkingHours st /\ s0 <= st <= s0 + 24 * msPerHour /\
                  (valid s0 -> valid st) /\ en = endAfter duration (Some st)).
  { intros E. injection E as <- <-. unfold msPerHour, startsInWorkingHours in *.
    repeat split; auto; lia. }
  destruct (geb _ _); [destruct (_ && _)|]; try (apply Hkeep; exact H).
  injection H as H1 H2. rewrite H1 in H2.
  apply nextDayAtNine_Some in H1 as [-> Hv].
  unfold startsInWorkingHours in *.
  split; [date_lia|]. split; [date_lia|]. auto.
Qed.

(** The start of lines 157-167 is the start it is given, moved to the
    Monday when it falls on a Saturday or Sunday. *)
Lemma offWeekend_start duration st en st' en' :
  offWeekend duration (Some st, en) = (Some st', en') ->
  en = endAfter duration (Some st) ->
  startsInWorkingHours st ->
  startsInWorkingHours st' /\ onWeekday st' /\
  st <= st' <= st + 48 * msPerHour /\
  (valid st -> valid st') /\
  en' = endAfter duration (Some st').
Proof.
  unfold offWeekend, startsInWorkingHours, onWeekday.
  change (DateObject.getDay (Some st)) with (Num (getDay st)).
  change (strictEq (Num (getDay st)) (Num 0)) with (getDay st =? 0).
  change (strictEq (Num (getDay st)) (Num 6)) with (getDay st =? 6).
  intros H He Hs. pose proof (getDay_range st) as Hr.
  destruct (Z.eqb_spec (getDay st) 0) as [E0|E0];
    [|destruct (Z.eqb_spec (getDay st) 6) as [E6|E6]].
  - rewrite setDate_plus in H by lia. injection H as H1 H2. rewrite H1 in H2.
    apply TimeClip_Some in H1 as [-> Hv].
    split; [date_lia|]. split; [date_lia|]. split; [date_lia|]. auto.
  - rewrite setDate_plus in H by lia. injection H as H1 H2. rewrite H1 in H2.
    apply TimeClip_Some in H1 as [-> Hv].
    split; [date_lia|]. split; [date_lia|]. split; [date_lia|]. auto.
  - injection H as <- <-. unfold msPerHour. repeat split; auto; lia.
Qed.

Lemma withEnd_end duration d a b :
  withEnd duration d = (a, b) -> b = endAfter duration a.
Proof.
  unfold withEnd. destruct (geb _ _); [destruct (_ && _)|];
    intros H; injection H as <- <-; reflexivity.
Qed.

(** *** What a returned suggestion was computed from *)

Lemma generate_inv now taskData startDate endDate s :
  generateLocalSchedulingSuggestions now taskData startDate endDate = Resolved s ->
  exists q,
    valid now /\ valid (priorityStart now taskData) /\
    beforeDeadline taskData (Some (priorityStart now taskData)) = Some q /\
    valid q /\ valid (workingHoursAdjust q) /\
    offWeekend (durationOf taskData)
      (withEnd (durationOf taskData) (Some (workingHoursAdjust q)))
      = (Some (suggested_start_time s), Some (suggested_end_time s)) /\
    reasoning s = reasoningText taskData (durationOf taskData) /\
    confidence_score s = 7 # 10.
Proof.
  unfold generateLocalSchedulingSuggestions. rewrite startByPriority_eq.
  destruct (TimeClip now) as [t|] eqn:Hnow;
    [|rewrite beforeDeadline_None; discriminate].
  apply TimeClip_Some in Hnow as [-> Hvnow].
  destruct (TimeClip (priorityStart now taskData)) as [p|] eqn:Hp;
    [|rewrite beforeDeadline_None; discriminate].
  apply TimeClip_Some in Hp as [-> Hvp].
  destruct (beforeDeadline taskData (Some (priorityStart now taskData)))
    as [q|] eqn:Hq; [|discriminate].
  pose proof (beforeDeadline_valid _ _ _ Hq Hvp) as Hvq.
  destruct (inWorkingHours (Some q)) as [s0|] eqn:Hs0; [|discriminate].
  apply inWorkingHours_Some in Hs0 as [-> Hv0].
  destruct (offWeekend _ _) as [a b] eqn:Hoff.
  destruct a as [st|]; [|discriminate]. destruct b as [en|]; [|discriminate].
  simpl. intros H. injection H as <-. simpl. exists q. auto 10.
Qed.

(** Every returned suggestion starts within working hours on a weekday,
    at most three days after the start of lines 130-137, and its end is
    computed from its start. *)
Lemma returned_start now taskData startDate endDate s :
  generateLocalSchedulingSuggestions now taskData startDate endDate = Resolved s ->
  exists q,
    beforeDeadline taskData (Some (priorityStart now taskData)) = Some q /\
    valid q /\ valid (workingHoursAdjust q) /\
    startsInWorkingHours (suggested_start_time s) /\
    onWeekday (suggested_start_time s) /\
    workingHoursAdjust q <= suggested_start_time s
      <= workingHoursAdjust q + 72 * msPerHour /\
    valid (suggested_start_time s) /\
    endAfter (durationOf taskData) (Some (suggested_start_time s))
      = Some (suggested_end_time s).
Proof.
  intros H. apply generate_inv in H as (q & _ & _ & Hq & Hvq & Hv0 & Hoff & _).
  exists q. split; [exact Hq|]. split; [exact Hvq|]. split; [exact Hv0|].
  destruct (withEnd (durationOf taskData) (Some (workingHoursAdjust q)))
    as [a b] eqn:Hw.
  destruct a as [st|]; [|rewrite offWeekend_None in Hoff; discriminate].
  destruct (withEnd_start _ _ _ _ Hw (workingHoursAdjust_hours q))
    as (Hh & Hb & Hv & He).
  destruct (offWeekend_start _ _ _ _ _ Hoff He Hh) as (Hh' & Hw' & Hb' & Hv' & He').
  split; [exact Hh'|]. split; [exact Hw'|].
  split; [unfold msPerHour in *; lia|]. split; [auto|]. now symmetry.
Qed.

(** *** Agreement with the steps on time values *)

Lemma endAdjust_snd d s :
  snd (endAdjust d s) = fst (endAdjust d s) + d * msPerMinute.
Proof.
  unfold endAdjust. destruct (_ >=? 17); [destruct (_ && _)|]; simpl;
    now rewrite setMinutes_getMinutes_plus.
Qed.

Lemma withEnd_exact d s0 a b :
  withEnd (Num d) (Some s0) = (Some a, b) ->
  Z.abs d <= 10 ^ 9 -> valid (s0 + d * msPerMinute) ->
  a = fst (endAdjust d s0).
Proof.
  intros H Hd Hv. unfold withEnd in H. rewrite endAfter_eq in H by exact Hd.
  rewrite (TimeClip_valid _ Hv) in H.
  change (DateObject.getHours (Some (s0 + d * msPerMinute)))
    with (Num (getHours (s0 + d * msPerMinute))) in H.
  change (DateObject.getMinutes (Some (s0 + d * msPerMinute)))
    with (Num (getMinutes (s0 + d * msPerMinute))) in H.
  unfold geb, strictEq, leb in H.
  unfold endAdjust. rewrite setMinutes_getMinutes_plus.
  destruct (_ >=? 17); [destruct (_ && _)|]; simpl;
    try (injection H as <- _; reflexivity).
  injection H as H _. apply nextDayAtNine_Some in H as [-> _].
  rewrite setDate_getDate_plus. f_equal; lia.
Qed.

Lemma offWeekend_exact d s e st en :
  offWeekend (Num d) (Some s, e) = (Some st, Some en) ->
  e = endAfter (Num d) (Some s) ->
  Z.abs d <= 10 ^ 9 ->
  (st, en) = weekendAdjust d (s, s + d * msPerMinute).
Proof.
  unfold offWeekend, weekendAdjust.
  change (DateObject.getDay (Some s)) with (Num (getDay s)).
  change (strictEq (Num (getDay s)) (Num 0)) with (getDay s =? 0).
  change (strictEq (Num (getDay s)) (Num 6)) with (getDay s =? 6).
  intros H He Hd.
  destruct (getDay s =? 0); [|destruct (getDay s =? 6)].
  - rewrite setDate_plus in H by lia. injection H as H1 H2. rewrite H1 in H2.
    apply TimeClip_Some in H1 as [-> _].
    rewrite endAfter_eq in H2 by exact Hd. apply TimeClip_Some in H2 as [-> _].
    now rewrite setMinutes_getMinutes_plus, setDate_getDate_plus.
  - rewrite setDate_plus in H by lia. injection H as H1 H2. rewrite H1 in H2.
    apply TimeClip_Some in H1 as [-> _].
    rewrite endAfter_eq in H2 by exact Hd. apply TimeClip_Some in H2 as [-> _].
    now rewrite setMinutes_getMinutes_plus, setDate_getDate_plus.
  - injection H as <- H2. rewrite He, endAfter_eq in H2 by exact Hd.
    apply TimeClip_Some in H2 as [-> _]. reflexivity.
Qed.

(** A returned interval is the one the steps on time values give, when the
    first end computed (line 141) is a valid [Date]. *)
Lemma slot_exact d s0 st en :
  offWeekend (Num d) (withEnd (Num d) (Some s0)) = (Some st, Some en) ->
  Z.abs d <= 10 ^ 9 -> valid (s0 + d * msPerMinute) ->
  (st, en) = weekendAdjust d (endAdjust d s0).
Proof.
  intros H Hd Hv.
  destruct (withEnd (Num d) (Some s0)) as [a b] eqn:Hw.
  destruct a as [a|]; [|rewrite offWeekend_None in H; discriminate].
  pose proof (withEnd_exact _ _ _ _ Hw Hd Hv) as Ha.
  pose proof (withEnd_end _ _ _ _ Hw) as Hb.
  rewrite (offWeekend_exact _ _ _ _ _ H Hb Hd).
  rewrite (surjective_pairing (endAdjust d s0)), endAdjust_snd, <- Ha.
  reflexivity.
Qed.

(** *** Ordinary inputs *)

Lemma near_valid t : near t -> valid t.
Proof. unfold near, valid, maxTime. lia. Qed.

Lemma deadlineAdjust_cases taskData p :
  deadlineAdjust taskData p = p \/
  exists d, deadline taskData = Some d /\
    d - 4 * msPerDay <= deadlineAdjust taskData p <= d + msPerDay.
Proof.
  unfold deadlineAdjust. destruct (deadline taskData) as [d|]; [|now left].
  destruct (_ <? p); [|now left]. right. exists d. split; [reflexivity|].
  destruct (priority taskData); date_lia.
Qed.

Lemma beforeDeadline_near taskData p :
  near p -> (forall d, deadline taskData = Some d -> near d) ->
  beforeDeadline taskData (Some p) = Some (deadlineAdjust taskData p).
Proof.
  intros Hp Hd. unfold beforeDeadline, deadlineAdjust.
  destruct (deadline taskData) as [d|]; [|reflexivity].
  specialize (Hd d eq_refl). rewrite deadline_eq.
  rewrite (TimeClip_valid d) by now apply near_valid.
  assert (Hv : valid (endOfDay d)).
  { unfold near, valid, maxTime, endOfDay in *. date_lia. }
  rewrite (TimeClip_valid _ Hv). fold (endOfDay d).
  change (DateObject.ltb (Some (endOfDay d)) (Some p)) with (endOfDay d <? p).
  destruct (endOfDay d <? p); [|reflexivity].
  destruct (priority taskData); rewrite setHours_minus by lia;
    (rewrite TimeClip_valid;
     [f_equal; date_lia
     |unfold near, valid, maxTime, endOfDay in *; date_lia]).
Qed.

Lemma inWorkingHours_near q :
  near q -> inWorkingHours (Some q) = Some (workingHoursAdjust q).
Proof.
  intros Hq. unfold inWorkingHours, workingHoursAdjust.
  change (DateObject.getHours (Some q)) with (Num (getHours q)).
  change (ltb (Num (getHours q)) (Num 9)) with (getHours q <? 9).
  change (geb (Num (getHours q)) (Num 17)) with (getHours q >=? 17).
  destruct (getHours q <? 9).
  - rewrite setHours4_exact by lia. apply TimeClip_valid.
    unfold near, valid, maxTime in *. date_lia.
  - destruct (getHours q >=? 17); [|reflexivity].
    rewrite nextDayAtNine_eq, TimeClip_valid
      by (unfold near, valid, maxTime, msPerDay in *; lia).
    rewrite setDate_getDate_plus.
    replace (q + 1 * msPerDay) with (q + msPerDay) by lia.
    apply TimeClip_valid. unfold near, valid, maxTime in *. date_lia.
Qed.

Lemma withEnd_near d s :
  Z.abs d <= 10 ^ 9 -> near s ->
  withEnd (Num d) (Some s) =
  (Some (fst (endAdjust d s)), Some (snd (endAdjust d s))).
Proof.
  intros Hd Hs. unfold withEnd. rewrite endAfter_eq by exact Hd.
  rewrite TimeClip_valid
    by (unfold near, valid, maxTime, msPerMinute in *; lia).
  change (DateObject.getHours (Some (s + d * msPerMinute)))
    with (Num (getHours (s + d * msPerMinute))).
  change (DateObject.getMinutes (Some (s + d * msPerMinute)))
    with (Num (getMinutes (s + d * msPerMinute))).
  unfold geb, strictEq, leb.
  unfold endAdjust. rewrite setMinutes_getMinutes_plus.
  destruct (_ >=? 17); [destruct (_ && _)|]; simpl; try reflexivity.
  rewrite nextDayAtNine_eq, TimeClip_valid
    by (unfold near, valid, maxTime, msPerDay in *; lia).
  rewrite setDate_getDate_plus.
  replace (s + 1 * msPerDay) with (s + msPerDay) by lia.
  rewrite TimeClip_valid by (unfold near, valid, maxTime in *; date_lia).
  rewrite endAfter_eq by exact Hd.
  rewrite TimeClip_valid
    by (unfold near, valid, maxTime in *; date_lia).
  now rewrite setMinutes_getMinutes_plus.
Qed.

Lemma offWeekend_near d s e :
  Z.abs d <= 10 ^ 9 -> near s ->
  offWeekend (Num d) (Some s, Some e) =
  (Some (fst (weekendAdjust d (s, e))), Some (snd (weekendAdjust d (s, e)))).
Proof.
  intros Hd Hs. unfold offWeekend, weekendAdjust.
  change (DateObject.getDay (Some s)) with (Num (getDay s)).
  change (strictEq (Num (getDay s)) (Num 0)) with (getDay s =? 0).
  change (strictEq (Num (getDay s)) (Num 6)) with (getDay s =? 6).
  destruct (getDay s =? 0); [|destruct (getDay s =? 6)]; [| |reflexivity];
    rewrite setDate_plus by lia;
    rewrite TimeClip_valid
      by (unfold near, valid, maxTime, msPerDay in *; lia);
    rewrite endAfter_eq by exact Hd;
    rewrite TimeClip_valid
      by (unfold near, valid, maxTime, msPerDay, msPerMinute in *; lia);
    cbn [fst snd];
    now rewrite setMinutes_getMinutes_plus, setDate_getDate_plus.
Qed.

(** For a clock reading and a deadline that are ordinary times and a
    duration of at most 10^9 minutes, the call returns, and it returns the
    interval the steps on time values give. *)
Lemma generate_ordinary now taskData startDate endDate d :
  ordinaryTime now ->
  (forall dl, deadline taskData = Some dl -> ordinaryTime dl) ->
  durationOf taskData = Num d -> Z.abs d <= 10 ^ 9 ->
  generateLocalSchedulingSuggestions now taskData startDate endDate =
  Resolved {| suggested_start_time := fst (slot d now taskData);
              suggested_end_time := snd (slot d now taskData);
              reasoning := reasoningText taskData (Num d);
              confidence_score := 7 # 10 |}.
Proof.
  unfold ordinaryTime. intros Hnow Hdl Hdur Hd.
  unfold generateLocalSchedulingSuggestions, slot.
  rewrite Hdur, startByPriority_eq.
  rewrite TimeClip_valid by (unfold valid, maxTime; lia).
  pose proof (priorityStart_eq now taskData) as Hp.
  assert (Hl : 1 <= leadHours (priority taskData) <= 72)
    by (destruct (priority taskData); simpl; lia).
  set (p := priorityStart now taskData) in *.
  assert (Hnp : Z.abs p <= 8 * 10 ^ 15 + 10 ^ 9) by (unfold msPerHour in *; lia).
  rewrite TimeClip_valid by (unfold valid, maxTime; lia).
  rewrite beforeDeadline_near;
    [|unfold near; lia|intros dl E; specialize (Hdl dl E); unfold near; lia].
  set (q := deadlineAdjust taskData p).
  assert (Hnq : Z.abs q <= 8 * 10 ^ 15 + 10 ^ 9).
  { destruct (deadlineAdjust_cases taskData p) as [E|(dl & E & Hb)]; fold q in E || fold q in Hb.
    - lia.
    - specialize (Hdl dl E). unfold msPerDay in *. lia. }
  rewrite inWorkingHours_near by (unfold near; lia).
  pose proof (workingHoursAdjust_bounds q) as Hb0.
  pose proof (workingHoursAdjust_hours q) as Hh0.
  set (s0 := workingHoursAdjust q) in *.
  rewrite withEnd_near by (try exact Hd; unfold near, msPerHour in *; lia).
  pose proof (endAdjust_bounds d s0 Hh0) as Hb1.
  rewrite offWeekend_near by (try exact Hd; unfold near, msPerHour in *; lia).
  rewrite <- surjective_pairing. reflexivity.
Qed.

(** *** The duration in use *)




(** The end of a returned suggestion, for a duration that is a number of
    at most 10^9 minutes. *)
Lemma returned_end now taskData startDate endDate s d :
  generateLocalSchedulingSuggestions now taskData startDate endDate = Resolved s ->
  durationOf taskData = Num d -> Z.abs d <= 10 ^ 9 ->
  suggested_end_time s = suggested_start_time s + d * msPerMinute /\
  valid (suggested_end_time s).
Proof.
  intros H Hdur Hd. apply returned_start in H as (q & _ & _ & _ & _ & _ & _ & _ & He).
  rewrite Hdur, endAfter_eq in He by exact Hd.
  apply TimeClip_Some in He as [-> Hv]. auto.
Qed.


(** For a duration of 0 to 10^9 minutes a returned interval is the one the
    steps on time values give from the start of lines 130-137. *)
Lemma returned_slot now taskData startDate endDate s d :
  generateLocalSchedulingSuggestions now taskData startDate endDate = Resolved s ->
  durationOf taskData = Num d -> 0 <= d <= 10 ^ 9 ->
  exists q,
    beforeDeadline taskData (Some (priorityStart now taskData)) = Some q /\
    (suggested_start_time s, suggested_end_time s) =
    weekendAdjust d (endAdjust d (workingHoursAdjust q)).
Proof.
  intros H Hdur Hd.
  destruct (returned_end _ _ _ _ _ _ H Hdur ltac:(lia)) as [He Hve].
  destruct (returned_start _ _ _ _ _ H)
    as (q & Hq & Hvq & Hv0 & _ & _ & Hb & Hvs & _).
  apply generate_inv in H as (q' & _ & _ & Hq' & _ & _ & Hoff & _).
  rewrite Hq in Hq'. injection Hq' as <-.
  exists q. split; [exact Hq|]. rewrite Hdur in Hoff.
  apply slot_exact in Hoff; [exact Hoff|lia|].
  unfold valid, maxTime, msPerMinute, msPerHour in *. lia.
Qed.

(** C3 (amended): every local suggestion that is returned starts within
    working hours (from 09:00, before 17:00) on a weekday (Monday to
    Friday); the end is only the start plus the duration, and for a
    duration of 0 to 420 minutes it falls on the same day no later than
    17:30:59.999. *)
Theorem start_in_working_hours_on_weekday now taskData startDate endDate s :
  generateLocalSchedulingSuggestions now taskData startDate endDate = Resolved s ->
  (9 * msPerHour <= TimeWithinDay (suggested_start_time s) < 17 * msPerHour) /\
  onWeekday (suggested_start_time s) /\
  (forall d, durationOf taskData = Num d -> 0 <= d <= 420 ->
   suggested_end_time s = suggested_start_time s + d * msPerMinute /\
   Day (suggested_end_time s) = Day (suggested_start_time s) /\
   onWeekday (suggested_end_time s) /\
   TimeWithinDay (suggested_end_time s) < 17 * msPerHour + 31 * msPerMinute).
Proof.
  intros H.
  destruct (returned_start _ _ _ _ _ H) as (q & _ & _ & _ & Hh & Hw & _).
  split; [now apply startsInWorkingHours_time|]. split; [exact Hw|].
  intros d Hdur Hd.
  destruct (returned_end _ _ _ _ _ _ H Hdur ltac:(lia)) as [He _].
  split; [exact He|].
  destruct (returned_slot _ _ _ _ _ _ H Hdur ltac:(lia)) as (q' & _ & Hslot).
  assert (Hst : suggested_start_time s =
                fst (weekendAdjust d (endAdjust d (workingHoursAdjust q'))))
    by now rewrite <- Hslot.
  assert (Hen : suggested_end_time s =
                snd (weekendAdjust d (endAdjust d (workingHoursAdjust q'))))
    by now rewrite <- Hslot.
  rewrite Hst, Hen in *.
  pose proof (workingHoursAdjust_hours q') as H0.
  destruct (endAdjust_spec d _ H0) as [E1 E2].
  destruct (endAdjust_same_day d _ H0 Hd) as [D1 D2].
  destruct (weekendAdjust_same_day d _ E2 D1) as [W1 W2].
  split; [exact W1|]. split; [|now rewrite W2].
  unfold onWeekday, getDay in *. now rewrite W1.
Qed.

(** C3, as stated, fails: at 15:30 on a Monday a high-priority task of 60
    minutes is given 16:30-17:30, which ends after 17:00. *)
Lemma end_after_working_hours_counterexample :
  let taskData := mkTask 1 "report" high None (Number 60) 0 in
  exists s,
    generateLocalSchedulingSuggestions (at_ monday 15 30) taskData None None
      = Resolved s /\
    suggested_start_time s = at_ monday 16 30 /\
    suggested_end_time s = at_ monday 17 30 /\
    ~ withinWorkingHours (suggested_end_time s).
Proof.
  simpl. eexists. split; [vm_compute; reflexivity|].
  vm_compute. repeat split; try reflexivity. intros [_ H]. now apply H.
Qed.

Lemma start_in_working_hours_on_weekday_witness :
  let taskData := mkTask 1 "report" high None (Number 60) 0 in
  exists s,
    generateLocalSchedulingSuggestions (at_ monday 15 30) taskData None None
      = Resolved s /\
    (9 * msPerHour <= TimeWithinDay (suggested_start_time s) < 17 * msPerHour) /\
    onWeekday (suggested_start_time s) /\
    suggested_end_time s = suggested_start_time s + 60 * msPerMinute /\
    Day (suggested_end_time s) = Day (suggested_start_time s) /\
    onWeekday (suggested_end_time s) /\
    TimeWithinDay (suggested_end_time s) < 17 * msPerHour + 31 * msPerMinute.
Proof.
  intros taskData.
  assert (H : exists s,
             generateLocalSchedulingSuggestions (at_ monday 15 30) taskData None None
               = Resolved s) by (eexists; vm_compute; reflexivity).
  destruct H as (s & H). exists s. split; [exact H|].
  destruct (start_in_working_hours_on_weekday _ _ _ _ _ H) as (H1 & H2 & H3).
  split; [exact H1|]. split; [exact H2|].
  apply (H3 60); [reflexivity|lia].
Defined.




(** C10: the local suggestion does not depend on the requested window:
    any two choices of [startDate] and [endDate] give the same result for
    the same task and clock reading, and the suggested interval can lie
    outside the window (here a low-priority task asked for Monday only is
    placed on Thursday). *)
Theorem window_is_ignored :
  (forall now taskData startDate1 endDate1 startDate2 endDate2,
     generateLocalSchedulingSuggestions now taskData startDate1 endDate1 =
     generateLocalSchedulingSuggestions now taskData startDate2 endDate2) /\
  (let taskData := mkTask 1 "tidy" low None (Number 60) 0 in
   let startDate := at_ monday 0 0 in
   let endDate := at_ monday 23 59 in
   exists s,
     generateLocalSchedulingSuggestions (at_ monday 10 0) taskData
       (Some startDate) (Some endDate) = Resolved s /\
     startDate <= endDate /\
     suggested_start_time s = at_ (monday + 3) 10 0 /\
     endDate < suggested_start_time s).
Proof.
  split; [reflexivity|].
  simpl. eexists. split; [vm_compute; reflexivity|].
  vm_compute. repeat split; reflexivity || discriminate.
Qed.

(** [parseInt] reads the text of a number: from 10^21 on that text is in
    exponent notation, and the number read is its first digit. *)
Example parseInt_reads_the_text :
  parseIntText (toString (Num 90)) = Num 90 /\
  toString (Num (10 ^ 21)) = "1e+21"%string /\
  parseInt (Number (10 ^ 21)) = Num 1 /\
  toString (Num (- (2 ^ 80))) = "-1.2089258196146292e+24"%string /\
  parseInt (Number (- (2 ^ 80))) = Num (-1) /\
  parseIntText "1e3" = Num 1 /\ parseIntText ".5" = NaN /\ parseIntText "0" = Num 0.
Proof. vm_compute. repeat split; reflexivity. Qed.

End SchedulingFacts.

(** ** The local schedule of [getOptimizedSchedule] *)
Module OptimizerFacts.
Import JsNumber JsDate JsDateFacts Async Scheduling SchedulingSpec SchedulingSpec2.
Import SchedulingFacts.

(** *** The loop *)

Lemma scheduleStep_eq task acc clock n :
  scheduleStep task acc clock n =
  (match entryOf (clock n) task with
   | Resolved e => Resolved (acc ++ [e])
   | Rejected err => Rejected err
   end, S n).
Proof.
  unfold scheduleStep, entryOf, bind, newDate, await, ret.
  destruct (generateLocalSchedulingSuggestions (clock n) task None None);
    reflexivity.
Qed.

Lemma forOf_scheduleStep tasks : forall acc clock n,
  fst (forOf tasks scheduleStep acc clock n) =
  match entriesFrom clock n tasks with
  | Resolved es => Resolved (acc ++ es)
  | Rejected err => Rejected err
  end.
Proof.
  induction tasks as [|task tasks IH]; intros acc clock n.
  - simpl. now rewrite app_nil_r.
  - cbn [forOf entriesFrom]. unfold bind. rewrite scheduleStep_eq.
    destruct (entryOf (clock n) task) as [e|err]; [|reflexivity].
    rewrite IH. destruct (entriesFrom clock (S n) tasks); [|reflexivity].
    now rewrite <- app_assoc.
Qed.

Lemma localSchedule_eq tasks clock n :
  fst (localSchedule tasks clock n) = entriesFrom clock n (sortTasks tasks).
Proof.
  unfold localSchedule. rewrite forOf_scheduleStep.
  now destruct (entriesFrom clock n (sortTasks tasks)).
Qed.

Lemma entryOf_inv now task e :
  entryOf now task = Resolved e ->
  exists s,
    generateLocalSchedulingSuggestions now task None None = Resolved s /\
    task_id e = id task /\ task_title e = title task /\
    entry_priority e = priority task /\
    entry_start_time e = suggested_start_time s /\
    entry_end_time e = suggested_end_time s /\
    entry_reasoning e = reasoning s.
Proof.
  unfold entryOf.
  destruct (generateLocalSchedulingSuggestions now task None None) as [s|];
    [|discriminate].
  intros H. injection H as <-. exists s. simpl. auto 10.
Qed.

Lemma entriesFrom_cons_inv clock n task tasks es :
  entriesFrom clock n (task :: tasks) = Resolved es ->
  exists e es',
    es = e :: es' /\ entryOf (clock n) task = Resolved e /\
    entriesFrom clock (S n) tasks = Resolved es'.
Proof.
  cbn [entriesFrom].
  destruct (entryOf (clock n) task) as [e|]; [|discriminate].
  destruct (entriesFrom clock (S n) tasks) as [es'|]; [|discriminate].
  intros H. injection H as <-. eauto.
Qed.


Lemma entriesFrom_task_ids clock tasks : forall n es,
  entriesFrom clock n tasks = Resolved es -> map task_id es = map id tasks.
Proof.
  induction tasks as [|t tasks IH]; intros n es H.
  - now injection H as <-.
  - apply entriesFrom_cons_inv in H as (e & es' & -> & He & Hes).
    apply entryOf_inv in He as (s & _ & Hid & _).
    simpl. now rewrite Hid, (IH _ _ Hes).
Qed.


Lemma entryOf_ordinary now task :
  ordinaryTime now -> ordinaryTask task -> exists e, entryOf now task = Resolved e.
Proof.
  intros Hnow [(d & Hdur & Hd) Hdl]. unfold entryOf.
  rewrite (generate_ordinary now task None None d Hnow Hdl Hdur Hd). eauto.
Qed.

Lemma entriesFrom_ordinary clock tasks : forall n,
  Forall ordinaryTask tasks -> (forall i, ordinaryTime (clock i)) ->
  exists es, entriesFrom clock n tasks = Resolved es.
Proof.
  induction tasks as [|t tasks IH]; intros n Ht Hc; [now exists []|].
  inversion Ht as [|? ? H1 H2]; subst. cbn [entriesFrom].
  destruct (entryOf_ordinary (clock n) t (Hc n) H1) as (e & ->).
  destruct (IH (S n) H2 Hc) as (es & ->). eauto.
Qed.

Lemma sortTasks_Permutation tasks : Permutation (sortTasks tasks) tasks.
Proof. apply JsSortFacts.sort_Permutation. Qed.


(** For ordinary tasks and clock readings the local schedule is
    returned. *)
Lemma localSchedule_ordinary tasks clock :
  Forall ordinaryTask tasks -> (forall i, ordinaryTime (clock i)) ->
  exists schedule, run (localSchedule tasks) clock = Resolved schedule.
Proof.
  intros Ht Hc. unfold run. rewrite localSchedule_eq.
  apply entriesFrom_ordinary; [|exact Hc].
  eapply Permutation_Forall; [symmetry; apply sortTasks_Permutation|exact Ht].
Qed.





(** *** The order of the schedule *)











(** *** Deadlines *)








(** *** Recovery from a failed remote call *)

Lemma remoteSchedule_clock srv token tasks clock n :
  snd (remoteSchedule srv token tasks clock n) = n.
Proof.
  unfold remoteSchedule, bind, await, throw, ret.
  destruct (truthyToken token); simpl.
  - destruct (fetchOptimize srv token tasks) as [r|e]; simpl; [|reflexivity].
    destruct (ok r); simpl; [|reflexivity].
    destruct (json r); reflexivity.
  - destruct (storedUserToken srv) as [u|e]; simpl; [|reflexivity].
    destruct (truthyToken (if truthyToken u then u else storedAuthToken srv));
      simpl; [|reflexivity].
    destruct (fetchOptimize srv _ tasks) as [r|e]; simpl; [|reflexivity].
    destruct (ok r); simpl; [|reflexivity].
    destruct (json r); reflexivity.
Qed.

Lemma remoteSuggestions_clock srv token taskData startDate endDate clock n :
  snd (remoteSuggestions srv token taskData startDate endDate clock n) = n.
Proof.
  unfold remoteSuggestions, bind, await, throw, ret.
  destruct (promiseAll2 _ _) as [et|e]; simpl; [|reflexivity].
  destruct (fetchSuggestions srv token _) as [r|e]; simpl; [|reflexivity].
  destruct (ok r); simpl; [|reflexivity].
  destruct (json r); reflexivity.
Qed.

Lemma windowDefaults_resolves startDate endDate clock n :
  exists window n',
    windowDefaults startDate endDate clock n = (Resolved window, n').
Proof.
  unfold windowDefaults, bind, newDate, ret.
  destruct startDate; simpl; eauto.
Qed.

Lemma getOptimizedSchedule_eq srv token tasks clock :
  run (getOptimizedSchedule srv token tasks) clock =
  match fst (remoteSchedule srv token tasks clock 0%nat) with
  | Resolved r => Resolved r
  | Rejected _ =>
      match entriesFrom clock 0%nat (sortTasks tasks) with
      | Resolved schedule => Resolved (LocalSchedule schedule)
      | Rejected e => Rejected e
      end
  end.
Proof.
  unfold run, getOptimizedSchedule, tryCatch.
  pose proof (remoteSchedule_clock srv token tasks clock 0%nat) as Hn.
  destruct (remoteSchedule srv token tasks clock 0%nat) as [[r|e] n]; simpl in *.
  - reflexivity.
  - subst n. unfold bind, ret.
    pose proof (localSchedule_eq tasks clock 0%nat) as Hl.
    destruct (localSchedule tasks clock 0%nat) as [[s|e'] n']; simpl in Hl;
      rewrite <- Hl; reflexivity.
Qed.

Lemma getSchedulingSuggestions_eq srv token taskData startDate endDate clock window n :
  windowDefaults startDate endDate clock 0%nat = (Resolved window, n) ->
  run (getSchedulingSuggestions srv token taskData startDate endDate) clock =
  match fst (remoteSuggestions srv token taskData (fst window) (snd window) clock n) with
  | Resolved r => Resolved r
  | Rejected _ =>
      match generateLocalSchedulingSuggestions (clock n) taskData
              (Some (fst window)) (Some (snd window)) with
      | Resolved s => Resolved (LocalSuggestion s)
      | Rejected e => Rejected e
      end
  end.
Proof.
  intros Hw. unfold run, getSchedulingSuggestions, bind at 1. rewrite Hw.
  unfold tryCatch.
  pose proof (remoteSuggestions_clock srv token taskData (fst window) (snd window)
                clock n) as Hn.
  destruct (remoteSuggestions srv token taskData (fst window) (snd window) clock n)
    as [[r|e] n']; simpl in *; [reflexivity|].
  subst n'. unfold bind, newDate, await, ret.
  destruct (generateLocalSchedulingSuggestions _ _ _ _); reflexivity.
Qed.

(** C5: the error of the local fallback reaches the caller.  With the
    network down, [getSchedulingSuggestions] called for a task whose
    duration is the text [.5], as the task form passes it, rejects with the
    [RangeError] of [toISOString], and so does [getOptimizedSchedule] for a
    task of 10^13 minutes: the handler that replaces the failed remote call
    throws itself. *)
Theorem fallback_error_reaches_caller :
  let clock := fun n : nat => at_ monday 10 0 + Z.of_nat n in
  let typed := mkTask 0 "report" high None (Text ".5") 0 in
  let huge := mkTask 7 "archive" low None (Number (10 ^ 13)) 0 in
  durationOf typed = NaN /\
  run (getSchedulingSuggestions offline (Some "t0k3n") typed None None) clock
    = Rejected "Invalid time value" /\
  run (getOptimizedSchedule offline (Some "t0k3n") [huge]) clock
    = Rejected "Invalid time value".
Proof. vm_compute. repeat split; reflexivity. Qed.

(** *** Determinism *)




End OptimizerFacts.

(** ** Validation in the time block dialog *)
Module TimeBlockModalFacts.
Import Async TimeBlockModal TimeBlockModalSpec.

Lemma invalidForm_guard formData :
  invalidForm formData ->
  noTaskSelected formData = true \/
  jsGe (start_time formData) (end_time formData) = true.
Proof.
  intros [H|(s & e & Hs & He & Hle)]; [now left|right].
  rewrite Hs, He. simpl. apply Z.geb_le. exact Hle.
Qed.

Lemma requests_setLoading b ui : requests (setLoading b ui) = requests ui.
Proof. reflexivity. Qed.

Lemma requests_afterSaved props d ui : requests (afterSaved props d ui) = requests ui.
Proof. unfold afterSaved. destruct (hasOnTimeBlockChange props); reflexivity. Qed.

(** C8: a form with no task selected, or with an end time that is not
    strictly after its start time, is refused with an error toast before
    any request: no create or update request is sent, the parent is not
    notified, the dialog stays open and [loading] ends false.  Every
    request that [handleSubmit] does send carries the form unchanged, with
    a task selected and, when both times are set, the start strictly before
    the end. *)
Theorem invalid_time_block_rejected :
  (forall props formData api ui,
     invalidForm formData ->
     let ui' := handleSubmit props formData api ui in
     requests ui' = requests ui /\
     changeNotifications ui' = changeNotifications ui /\
     closeCalls ui' = closeCalls ui /\
     loading ui' = false /\
     exists description,
       toasts ui' = toasts ui ++ [errorToast description]) /\
  (forall props formData api ui r,
     In r (requests (handleSubmit props formData api ui)) ->
     In r (requests ui) \/
     (requestData r = formData /\
      noTaskSelected formData = false /\
      forall s e, start_time formData = Some s -> end_time formData = Some e ->
                  s < e)).
Proof.
  split.
  - intros props formData api ui Hinv ui'. subst ui'. unfold handleSubmit.
    destruct (invalidForm_guard formData Hinv) as [H|H].
    + rewrite H. simpl. repeat split; eauto.
    + destruct (noTaskSelected formData); [simpl; repeat split; eauto|].
      rewrite H. simpl. repeat split; eauto.
  - intros props formData api ui r. unfold handleSubmit.
    destruct (noTaskSelected formData) eqn:Hsel; [simpl; auto|].
    destruct (jsGe (start_time formData) (end_time formData)) eqn:Hge;
      [simpl; auto|].
    assert (Hok : forall s e, start_time formData = Some s ->
                              end_time formData = Some e -> s < e).
    { intros s e Hs He. rewrite Hs, He in Hge. simpl in Hge.
      destruct (Z.geb_spec s e); [discriminate|lia]. }
    rewrite requests_setLoading.
    destruct (isCreating props).
    + destruct (api _); rewrite ?requests_afterSaved; simpl;
        rewrite in_app_iff; simpl; intros [Hin|[<-|[]]]; auto.
    + destruct (timeBlock props) as [timeBlockId|]; [|simpl; auto].
      destruct (api _); rewrite ?requests_afterSaved; simpl;
        rewrite in_app_iff; simpl; intros [Hin|[<-|[]]]; auto.
Qed.

Lemma invalid_time_block_rejected_witness :
  let props := {| token := "t0k3n"; timeBlock := None; isCreating := true;
                  hasOnTimeBlockChange := true |} in
  let formData := {| task_id := Some 4; start_time := Some 1736157600000;
                     end_time := Some 1736157600000; status := "scheduled";
                     notes := ""; actual_start_time := None;
                     actual_end_time := None |} in
  let ui := {| loading := false; toasts := []; requests := [];
               changeNotifications := 0; closeCalls := 0 |} in
  let ui' := handleSubmit props formData (fun _ => Resolved tt) ui in
  invalidForm formData /\
  requests ui' = requests ui /\
  changeNotifications ui' = changeNotifications ui /\
  closeCalls ui' = closeCalls ui /\
  loading ui' = false /\
  exists description, toasts ui' = toasts ui ++ [errorToast description].
Proof.
  intros props formData ui ui'.
  assert (H : invalidForm formData).
  { right. exists 1736157600000, 1736157600000.
    split; [reflexivity|split; [reflexivity|lia]]. }
  split; [exact H|].
  exact (proj1 invalid_time_block_rejected props formData (fun _ => Resolved tt) ui H).
Defined.

(** A date field without a valid date is outside the check of line 96: the
    comparison with a missing operand is false, so such a form goes on to
    the request. *)
Example cleared_start_is_submitted :
  let props := {| token := "t0k3n"; timeBlock := None; isCreating := true;
                  hasOnTimeBlockChange := false |} in
  let formData := {| task_id := Some 4; start_time := None;
                     end_time := Some 1736157600000; status := "scheduled";
                     notes := ""; actual_start_time := None;
                     actual_end_time := None |} in
  let ui := {| loading := false; toasts := []; requests := [];
               changeNotifications := 0; closeCalls := 0 |} in
  requests (handleSubmit props formData (fun _ => Resolved tt) ui)
  = [CreateTimeBlock "t0k3n" formData].
Proof. reflexivity. Qed.

End TimeBlockModalFacts.

(** ** AI prioritisation of the task list *)
Module TaskPrioritizationFacts.
Import TaskPrioritization TaskPrioritizationSpec.


Lemma notAfter_scores a b :
  JsSort.notAfter compareScores a b <-> (scoreOf b <= scoreOf a)%Q.
Proof.
  unfold JsSort.notAfter, compareScores. fold (scoreOf a) (scoreOf b).
  rewrite <- Qle_alt. split; intros; lra.
Qed.








End TaskPrioritizationFacts.

(** ** Further properties of the scheduling service *)
Module SchedulingExtras.
Import JsNumber JsDate JsDateFacts Async Scheduling SchedulingSpec SchedulingSpec2.
Import SchedulingFacts OptimizerFacts OptimalTimeBlock.



(** X2: without arguments the scheduling window runs from local midnight
    of the day of the clock reading to the last millisecond of the seventh
    day after it, so it contains the clock reading and spans eight
    calendar days; with only a start given, it ends with the last
    millisecond of the seventh day after the start. *)
Theorem default_window clock n :
  (exists s e,
     windowDefaults None None clock n = (Resolved (s, e), S n) /\
     TimeWithinDay s = 0 /\
     s <= clock n < s + msPerDay /\
     e = s + 8 * msPerDay - 1) /\
  (forall d, exists e,
     windowDefaults (Some d) None clock n = (Resolved (d, e), n) /\
     Day e = Day d + 7 /\
     TimeWithinDay e = msPerDay - 1).
Proof.
  split.
  - exists (setHours4 (clock n) 0 0 0 0).
    exists (setHours4 (setDate (setHours4 (clock n) 0 0 0 0)
                         (getDate (setHours4 (clock n) 0 0 0 0) + 7)) 23 59 59 999).
    split; [reflexivity|].
    rewrite setDate_getDate_plus. repeat split; date_lia.
  - intros d. exists (setHours4 (setDate d (getDate d + 7)) 23 59 59 999).
    split; [reflexivity|].
    rewrite setDate_getDate_plus. split; date_lia.
Qed.

Lemma remoteSchedule_fst srv token tasks clock n :
  fst (remoteSchedule srv token tasks clock n) =
  match effectiveToken srv token with
  | None =>
      match storedUserToken srv with
      | Resolved _ => Rejected "Authentication token not found"
      | Rejected e => Rejected e
      end
  | Some tok =>
      match fetchOptimize srv tok tasks with
      | Rejected e => Rejected e
      | Resolved response =>
          if ok response then
            match json response with
            | Resolved data => Resolved (RemoteSchedule data)
            | Rejected e => Rejected e
            end
          else Rejected ("Error optimizing schedule: " +:+ pretty (status response))
      end
  end.
Proof.
  unfold remoteSchedule, effectiveToken, bind, await, throw, ret.
  destruct (truthyToken token); simpl.
  - destruct (fetchOptimize srv token tasks) as [r|e]; simpl; [|reflexivity].
    destruct (ok r); simpl; [|reflexivity]. destruct (json r); reflexivity.
  - destruct (storedUserToken srv) as [u|e]; simpl; [|reflexivity].
    destruct (truthyToken (if truthyToken u then u else storedAuthToken srv));
      simpl; [|reflexivity].
    destruct (fetchOptimize srv _ tasks) as [r|e]; simpl; [|reflexivity].
    destruct (ok r); simpl; [|reflexivity]. destruct (json r); reflexivity.
Qed.

Lemma remoteSchedule_no_token srv token tasks clock n :
  effectiveToken srv token = None ->
  exists e, fst (remoteSchedule srv token tasks clock n) = Rejected e.
Proof.
  intros Htok. rewrite remoteSchedule_fst, Htok.
  destruct (storedUserToken srv); eauto.
Qed.

(** X3: when no authentication token is passed and none can be read from
    the browser storage, [getOptimizedSchedule] never answers with a
    payload of the server: whatever the optimisation endpoint would have
    answered, its outcome is the one of the local schedule, and a schedule
    it returns has one entry for each task. *)
Theorem no_token_gives_local_schedule srv token tasks clock :
  effectiveToken srv token = None ->
  (forall data,
     run (getOptimizedSchedule srv token tasks) clock <> Resolved (RemoteSchedule data)) /\
  (forall r, run (getOptimizedSchedule srv token tasks) clock = Resolved r ->
     exists schedule,
       r = LocalSchedule schedule /\
       Permutation (map task_id schedule) (map id tasks)) /\
  (Forall knownPriority tasks ->
   run (getOptimizedSchedule srv token tasks) clock =
   match run (localSchedule tasks) clock with
   | Resolved schedule => Resolved (LocalSchedule schedule)
   | Rejected e => Rejected e
   end).
Proof.
  intros Htok.
  destruct (remoteSchedule_no_token srv token tasks clock 0%nat Htok) as (e & He).
  rewrite getOptimizedSchedule_eq, He. unfold run. rewrite localSchedule_eq.
  destruct (entriesFrom clock 0%nat (sortTasks tasks)) as [schedule|e'] eqn:Hes.
  - split; [discriminate|]. split; [|reflexivity].
    intros r Hr. injection Hr as <-. exists schedule. split; [reflexivity|].
    rewrite (entriesFrom_task_ids _ _ _ _ Hes).
    apply Permutation_map, sortTasks_Permutation.
  - split; [discriminate|]. split; [discriminate|reflexivity].
Qed.

Lemma no_token_gives_local_schedule_witness :
  let srv := {| fetchCalendarEvents := fun _ _ _ => Resolved "[]";
                fetchTimeBlocks := fun _ _ _ => Resolved "[]";
                fetchSuggestions := fun _ _ =>
                  Resolved {| ok := true; status := 200; json := Resolved "{}" |};
                fetchOptimize := fun _ _ =>
                  Resolved {| ok := true; status := 200; json := Resolved "{}" |};
                storedUserToken := Resolved (Some "");
                storedAuthToken := None |} in
  let tasks := [mkTask 1 "a" low None Absent 3] in
  let clock := fun _ : nat => at_ monday 10 0 in
  effectiveToken srv None = None /\
  run (getOptimizedSchedule srv None tasks) clock <> Resolved (RemoteSchedule "{}") /\
  exists schedule,
    run (getOptimizedSchedule srv None tasks) clock = Resolved (LocalSchedule schedule) /\
    Permutation (map task_id schedule) (map id tasks).
Proof.
  intros srv tasks clock. split; [reflexivity|].
  destruct (no_token_gives_local_schedule srv None tasks clock eq_refl)
    as (Hnot & Hloc & _).
  split; [apply Hnot|].
  assert (Hr : exists r, run (getOptimizedSchedule srv None tasks) clock = Resolved r)
    by (eexists; vm_compute; reflexivity).
  destruct Hr as (r & Hr). destruct (Hloc r Hr) as (schedule & -> & Hp).
  exists schedule. split; [exact Hr|exact Hp].
Defined.

(** X4: [getOptimizedSchedule] hands back the server's payload exactly
    when a token is found, the request resolves with an ok status and the
    body parses; the payload is then returned as it is. *)
Theorem schedule_from_server_iff srv token tasks clock data :
  run (getOptimizedSchedule srv token tasks) clock = Resolved (RemoteSchedule data) <->
  exists tok response,
    effectiveToken srv token = Some tok /\
    fetchOptimize srv tok tasks = Resolved response /\
    ok response = true /\
    json response = Resolved data.
Proof.
  rewrite getOptimizedSchedule_eq, remoteSchedule_fst.
  destruct (effectiveToken srv token) as [tok|].
  - destruct (fetchOptimize srv tok tasks) as [r|e] eqn:Hf.
    + destruct (ok r) eqn:Hok.
      * destruct (json r) as [d|e] eqn:Hj.
        -- split.
           ++ intros H. injection H as <-. eauto 10.
           ++ intros (tok' & r' & Ht & Hr & _ & Hd).
              injection Ht as <-. rewrite Hf in Hr. injection Hr as <-.
              rewrite Hj in Hd. now injection Hd as <-.
        -- split; [destruct (entriesFrom _ _ _); discriminate|].
           intros (tok' & r' & Ht & Hr & _ & Hd).
           injection Ht as <-. rewrite Hf in Hr. injection Hr as <-.
           rewrite Hj in Hd. discriminate.
      * split; [destruct (entriesFrom _ _ _); discriminate|].
        intros (tok' & r' & Ht & Hr & Hok' & _).
        injection Ht as <-. rewrite Hf in Hr. injection Hr as <-. congruence.
    + split; [destruct (entriesFrom _ _ _); discriminate|].
      intros (tok' & r' & Ht & Hr & _). injection Ht as <-. congruence.
  - split.
    + destruct (storedUserToken srv); destruct (entriesFrom _ _ _); discriminate.
    + intros (tok' & r' & Ht & _). discriminate.
Qed.

Lemma remoteSuggestions_fst srv token taskData startDate endDate clock n :
  fst (remoteSuggestions srv token taskData startDate endDate clock n) =
  match promiseAll2 (fetchCalendarEvents srv token startDate endDate)
                    (fetchTimeBlocks srv token startDate endDate) with
  | Rejected e => Rejected e
  | Resolved et =>
      match fetchSuggestions srv token
              {| req_task := taskData; req_calendar_events := fst et;
                 req_time_blocks := snd et; req_start_date := startDate;
                 req_end_date := endDate |} with
      | Rejected e => Rejected e
      | Resolved response =>
          if ok response then
            match json response with
            | Resolved data => Resolved (RemoteSuggestion data)
            | Rejected e => Rejected e
            end
          else Rejected ("Error getting scheduling suggestions: "
                         +:+ pretty (status response))
      end
  end.
Proof.
  unfold remoteSuggestions, bind, await, throw, ret.
  destruct (promiseAll2 _ _) as [et|e]; simpl; [|reflexivity].
  destruct (fetchSuggestions srv token _) as [r|e]; simpl; [|reflexivity].
  destruct (ok r); simpl; [|reflexivity]. destruct (json r); reflexivity.
Qed.

(** X5: [getSchedulingSuggestions] hands back the server's payload exactly
    when the calendar events and the time blocks of the window are both
    fetched, the suggestion request built from them resolves with an ok
    status and its body parses.  A failure of either calendar fetch alone
    therefore leads to the local suggestion. *)
Theorem suggestions_from_server_iff
    srv token taskData startDate endDate clock window n data :
  windowDefaults startDate endDate clock 0%nat = (Resolved window, n) ->
  (run (getSchedulingSuggestions srv token taskData startDate endDate) clock
     = Resolved (RemoteSuggestion data) <->
   exists events blocks response,
     fetchCalendarEvents srv token (fst window) (snd window) = Resolved events /\
     fetchTimeBlocks srv token (fst window) (snd window) = Resolved blocks /\
     fetchSuggestions srv token
       {| req_task := taskData; req_calendar_events := events;
          req_time_blocks := blocks; req_start_date := fst window;
          req_end_date := snd window |} = Resolved response /\
     ok response = true /\
     json response = Resolved data).
Proof.
  intros Hw. rewrite (getSchedulingSuggestions_eq _ _ _ _ _ _ _ _ Hw).
  rewrite remoteSuggestions_fst. unfold promiseAll2.
  destruct (fetchCalendarEvents srv token _ _) as [ev|e1] eqn:He.
  2:{ split; [destruct (generateLocalSchedulingSuggestions _ _ _ _); discriminate|]. intros (? & ? & ? & H & _). discriminate. }
  destruct (fetchTimeBlocks srv token _ _) as [bl|e2] eqn:Hb.
  2:{ split; [destruct (generateLocalSchedulingSuggestions _ _ _ _); discriminate|]. intros (? & ? & ? & _ & H & _). discriminate. }
  simpl.
  destruct (fetchSuggestions srv token _) as [r|e3] eqn:Hf.
  2:{ split; [destruct (generateLocalSchedulingSuggestions _ _ _ _); discriminate|].
      intros (ev' & bl' & r' & H1 & H2 & H3 & _).
      injection H1 as <-. injection H2 as <-. congruence. }
  destruct (ok r) eqn:Hok.
  2:{ split; [destruct (generateLocalSchedulingSuggestions _ _ _ _); discriminate|].
      intros (ev' & bl' & r' & H1 & H2 & H3 & H4 & _).
      injection H1 as <-. injection H2 as <-.
      rewrite Hf in H3. injection H3 as <-. congruence. }
  destruct (json r) as [d|e4] eqn:Hj.
  - split.
    + intros H. injection H as <-. exists ev, bl, r. auto.
    + intros (ev' & bl' & r' & H1 & H2 & H3 & _ & H5).
      injection H1 as <-. injection H2 as <-.
      rewrite Hf in H3. injection H3 as <-. rewrite Hj in H5.
      now injection H5 as <-.
  - split; [destruct (generateLocalSchedulingSuggestions _ _ _ _); discriminate|].
    intros (ev' & bl' & r' & H1 & H2 & H3 & _ & H5).
    injection H1 as <-. injection H2 as <-.
    rewrite Hf in H3. injection H3 as <-. congruence.
Qed.

Lemma suggestions_from_server_iff_witness :
  let srv := {| fetchCalendarEvents := fun _ _ _ => Resolved "[]";
                fetchTimeBlocks := fun _ _ _ => Rejected "Failed to fetch";
                fetchSuggestions := fun _ _ =>
                  Resolved {| ok := true; status := 200; json := Resolved "{}" |};
                fetchOptimize := fun _ _ => Rejected "Failed to fetch";
                storedUserToken := Resolved None;
                storedAuthToken := None |} in
  let taskData := mkTask 1 "report" high None (Number 60) 0 in
  let clock := fun _ : nat => at_ monday 10 0 in
  let window := (at_ monday 0 0, at_ monday 23 59) in
  windowDefaults (Some (fst window)) (Some (snd window)) clock 0%nat
    = (Resolved window, 0%nat) /\
  run (getSchedulingSuggestions srv (Some "t0k3n") taskData
         (Some (fst window)) (Some (snd window))) clock
    <> Resolved (RemoteSuggestion "{}").
Proof.
  intros srv taskData clock window.
  assert (Hw : windowDefaults (Some (fst window)) (Some (snd window)) clock 0%nat
               = (Resolved window, 0%nat)) by reflexivity.
  split; [exact Hw|].
  intros H.
  apply (suggestions_from_server_iff srv (Some "t0k3n") taskData _ _ clock
           window 0%nat "{}" Hw) in H.
  destruct H as (ev & bl & r & _ & Hb & _). discriminate Hb.
Defined.







Lemma schedule_from_server_iff_witness :
  let answer := {| ok := true; status := 200; json := Resolved "{}" |} in
  let srv := {| fetchCalendarEvents := fun _ _ _ => Resolved "[]";
                fetchTimeBlocks := fun _ _ _ => Resolved "[]";
                fetchSuggestions := fun _ _ => Resolved answer;
                fetchOptimize := fun _ _ => Resolved answer;
                storedUserToken := Resolved None;
                storedAuthToken := Some "st0red" |} in
  let tasks := [mkTask 1 "a" low None Absent 3] in
  (effectiveToken srv None = Some (Some "st0red") /\
   fetchOptimize srv (Some "st0red") tasks = Resolved answer /\
   ok answer = true /\ json answer = Resolved "{}") /\
  run (getOptimizedSchedule srv None tasks) (fun _ => at_ monday 10 0)
    = Resolved (RemoteSchedule "{}").
Proof.
  intros answer srv tasks.
  assert (H : effectiveToken srv None = Some (Some "st0red") /\
              fetchOptimize srv (Some "st0red") tasks = Resolved answer /\
              ok answer = true /\ json answer = Resolved "{}")
    by (repeat split; reflexivity).
  split; [exact H|].
  apply (proj2 (schedule_from_server_iff srv None tasks (fun _ => at_ monday 10 0) "{}")).
  exists (Some "st0red"), answer. exact H.
Defined.


(** X21: for ordinary tasks and clock readings a failing remote call is
    not seen by the caller.  Whatever the network and the storage answer,
    [getSchedulingSuggestions] and [getOptimizedSchedule] resolve; and when
    the remote part rejects, whatever the error, they resolve with the
    suggestion the local fallback returns and with the local schedule. *)
Theorem remote_failure_recovered_locally srv token clock :
  (forall i, ordinaryTime (clock i)) ->
  (forall taskData startDate endDate, ordinaryTask taskData ->
     exists r,
       run (getSchedulingSuggestions srv token taskData startDate endDate) clock
         = Resolved r) /\
  (forall tasks, Forall ordinaryTask tasks ->
     exists r, run (getOptimizedSchedule srv token tasks) clock = Resolved r) /\
  (forall taskData startDate endDate window n e, ordinaryTask taskData ->
     windowDefaults startDate endDate clock 0%nat = (Resolved window, n) ->
     fst (remoteSuggestions srv token taskData (fst window) (snd window) clock n)
       = Rejected e ->
     exists s,
       generateLocalSchedulingSuggestions (clock n) taskData
         (Some (fst window)) (Some (snd window)) = Resolved s /\
       run (getSchedulingSuggestions srv token taskData startDate endDate) clock
         = Resolved (LocalSuggestion s)) /\
  (forall tasks e, Forall ordinaryTask tasks ->
     fst (remoteSchedule srv token tasks clock 0%nat) = Rejected e ->
     exists schedule,
       run (localSchedule tasks) clock = Resolved schedule /\
       run (getOptimizedSchedule srv token tasks) clock
         = Resolved (LocalSchedule schedule)).
Proof.
  intros Hc.
  assert (Hgen : forall taskData n sd ed, ordinaryTask taskData ->
            exists s, generateLocalSchedulingSuggestions (clock n) taskData sd ed
                      = Resolved s).
  { intros taskData n sd ed [(d & Hdur & Hd) Hdl].
    rewrite (generate_ordinary (clock n) taskData sd ed d (Hc n) Hdl Hdur Hd). eauto. }
  repeat apply conj.
  - intros taskData startDate endDate Ht.
    destruct (windowDefaults_resolves startDate endDate clock 0%nat) as (w & n & Hw).
    rewrite (getSchedulingSuggestions_eq _ _ _ _ _ _ _ _ Hw).
    destruct (fst _); [eauto|].
    destruct (Hgen taskData n (Some (fst w)) (Some (snd w)) Ht) as (s & ->). eauto.
  - intros tasks Ht. rewrite getOptimizedSchedule_eq.
    destruct (fst _); [eauto|].
    destruct (localSchedule_ordinary tasks clock Ht Hc) as (schedule & Hs).
    unfold run in Hs. rewrite localSchedule_eq in Hs. rewrite Hs. eauto.
  - intros taskData startDate endDate window n e Ht Hw Hrej.
    rewrite (getSchedulingSuggestions_eq _ _ _ _ _ _ _ _ Hw), Hrej.
    destruct (Hgen taskData n (Some (fst window)) (Some (snd window)) Ht) as (s & ->).
    eauto.
  - intros tasks e Ht Hrej. rewrite getOptimizedSchedule_eq, Hrej.
    destruct (localSchedule_ordinary tasks clock Ht Hc) as (schedule & Hs).
    exists schedule. split; [exact Hs|].
    unfold run in Hs. rewrite localSchedule_eq in Hs. now rewrite Hs.
Qed.

Lemma remote_failure_recovered_locally_witness :
  let clock := fun n : nat => at_ monday 10 0 + Z.of_nat (Nat.min n 5) in
  let taskData := mkTask 7 "invoice" high None (Number 60) 0 in
  (forall i, ordinaryTime (clock i)) /\ ordinaryTask taskData /\
  (exists s,
     run (getSchedulingSuggestions offline (Some "t0k3n") taskData None None) clock
       = Resolved (LocalSuggestion s)) /\
  (exists schedule,
     run (getOptimizedSchedule offline (Some "t0k3n") [taskData]) clock
       = Resolved (LocalSchedule schedule)).
Proof.
  intros clock taskData.
  assert (Hc : forall i, ordinaryTime (clock i)).
  { intros i. unfold ordinaryTime, clock.
    assert (0 <= Z.of_nat (Nat.min i 5) <= 5) by lia.
    assert (at_ monday 10 0 = 1736157600000) by reflexivity. lia. }
  assert (Ht : ordinaryTask taskData).
  { split; [exists 60; split; [reflexivity|lia]|discriminate]. }
  split; [exact Hc|]. split; [exact Ht|].
  destruct (remote_failure_recovered_locally offline (Some "t0k3n") clock Hc)
    as (_ & _ & Hsug & Hopt).
  split.
  - assert (Hw : windowDefaults None None clock 0%nat =
                 (Resolved (at_ monday 0 0, at_ (monday + 7) 23 59 + 59999), 1%nat))
      by (vm_compute; reflexivity).
    assert (Hr : fst (remoteSuggestions offline (Some "t0k3n") taskData
                        (at_ monday 0 0) (at_ (monday + 7) 23 59 + 59999) clock 1%nat)
                 = Rejected "Failed to fetch") by reflexivity.
    destruct (Hsug taskData None None _ 1%nat _ Ht Hw Hr) as (s & _ & Hs). eauto.
  - assert (Hr : fst (remoteSchedule offline (Some "t0k3n") [taskData] clock 0%nat)
                 = Rejected "Failed to fetch") by reflexivity.
    destruct (Hopt [taskData] _ ltac:(constructor; [exact Ht|constructor]) Hr)
      as (schedule & _ & Hs). eauto.
Defined.

End SchedulingExtras.

(** ** Further properties of the stable sort *)
Module JsSortExtras.
Import JsSort JsSortFacts.

Section Idempotent.
Context {A : Type} (comparefn : A -> A -> comparison).

Lemma sort_sorted l :
  StronglySorted (notAfter comparefn) l -> sort comparefn l = l.
Proof.
  induction 1 as [|x l Hs IH Hx]; [reflexivity|].
  rewrite sort_cons, IH. destruct l as [|y l]; [reflexivity|].
  simpl. apply Forall_cons in Hx as [Hxy _]. unfold notAfter in Hxy.
  destruct (comparefn x y); congruence.
Qed.

End Idempotent.
End JsSortExtras.

(** ** Further properties of the prioritisation hook *)
Module PrioritizationExtras.
Import Async TaskPrioritization TaskPrioritizationSpec TaskPrioritizationFacts.
Import PrioritizationHook PrioritizationSpec2.

Lemma enhance_idem pm t : enhance pm (enhance pm t) = enhance pm t.
Proof. reflexivity. Qed.

Lemma map_enhance_fixed pm l l' :
  Permutation l' (map (enhance pm) l) -> map (enhance pm) l' = l'.
Proof.
  intros Hp. rewrite <- (map_id l') at 2. apply map_ext_in.
  intros t Ht. apply (Permutation_in _ Hp) in Ht.
  apply in_map_iff in Ht as (u & <- & _). apply enhance_idem.
Qed.

Lemma sort_scores_sorted l :
  StronglySorted (JsSort.notAfter compareScores) (JsSort.sort compareScores l).
Proof.
  apply (JsSortFacts.sort_StronglySorted compareScores (fun _ => True)).
  - intros x y _ _ Hgt. apply notAfter_scores.
    unfold compareScores in Hgt. fold (scoreOf x) (scoreOf y) in Hgt.
    apply Qgt_alt in Hgt. lra.
  - intros x y z _ _ _ Hxy Hyz. apply notAfter_scores.
    apply notAfter_scores in Hxy, Hyz. lra.
  - apply List.Forall_forall. auto.
Qed.

(** X8: applying the AI prioritisation to a list that already went through
    it, under the same hook state, changes nothing. *)
Theorem applyAIPrioritization_idempotent st tasks :
  applyAIPrioritization st (applyAIPrioritization st tasks) =
  applyAIPrioritization st tasks.
Proof.
  destruct tasks as [v|[|t l]]; try reflexivity.
  unfold applyAIPrioritization at 2.
  destruct (negb (aiPrioritizationEnabled st) || _) eqn:Hoff.
  - unfold applyAIPrioritization. now rewrite Hoff.
  - set (pm := buildPriorityMap (prioritizedTasks st)).
    set (out := JsSort.sort compareScores (map (enhance pm) (t :: l))).
    assert (Hperm : Permutation out (map (enhance pm) (t :: l)))
      by apply JsSortFacts.sort_Permutation.
    destruct out as [|u out'] eqn:Hout.
    + apply Permutation_length in Hperm. discriminate Hperm.
    + unfold applyAIPrioritization. rewrite Hoff. fold pm.
      rewrite (map_enhance_fixed pm (t :: l) (u :: out') Hperm).
      f_equal. rewrite <- Hout. unfold out.
      apply JsSortExtras.sort_sorted, sort_scores_sorted.
Qed.

(** X9: the list shown by the task list always holds exactly the tasks of
    the input, none lost and none twice, whatever the state of the hook;
    for a null task list it is empty. *)
Theorem shown_tasks_are_the_tasks st tasks :
  exists out,
    prioritizedTasksData st tasks = TaskArray out /\
    Permutation (map core out) (map core (default [] tasks)) /\
    length out = length (default [] tasks).
Proof.
  assert (Hap : forall l, exists out,
            applyAIPrioritization st (TaskArray l) = TaskArray out /\
            Permutation (map core out) (map core l)).
  { intros [|t l]; [exists []; split; [reflexivity|constructor]|].
    unfold applyAIPrioritization.
    destruct (negb (aiPrioritizationEnabled st) || _).
    - eexists. split; [reflexivity|reflexivity].
    - eexists. split; [reflexivity|].
      rewrite (Permutation_map core (JsSortFacts.sort_Permutation _ _)).
      rewrite map_map. reflexivity. }
  destruct tasks as [l|]; unfold prioritizedTasksData.
  - change (default [] (Some l)) with l.
    destruct ((0 <? length l)%nat && aiPrioritizationEnabled st).
    + destruct (Hap l) as (out & -> & Hp). exists out. split; [reflexivity|].
      split; [exact Hp|].
      apply Permutation_length in Hp. now rewrite !length_map in Hp.
    + exists l. auto.
  - exists []. repeat split; constructor.
Qed.



Lemma includes_empty s : includes s "" = true.
Proof. destruct s; reflexivity. Qed.

Section SuggestionFacts.
Variable normalizeText : string -> string.

Lemma firstMatch_Some title tasks p :
  firstMatch normalizeText title tasks = Some p <->
  exists pre task post,
    tasks = pre ++ task :: post /\
    Forall (fun u => titlesMatch normalizeText title u = false) pre /\
    titlesMatch normalizeText title task = true /\
    p = levelOf (orZero (ai_priority_score (tp_task task))).
Proof.
  induction tasks as [|t tasks IH]; simpl.
  - split; [discriminate|]. intros (pre & ? & ? & H & _). now destruct pre.
  - destruct (titlesMatch normalizeText title t) eqn:Hm.
    + split.
      * intros H. injection H as <-. exists [], t, tasks. auto.
      * intros (pre & u & post & Heq & Hpre & Hu & ->).
        destruct pre as [|v pre]; simpl in Heq; injection Heq as E1 E2; subst.
        -- reflexivity.
        -- apply Forall_cons in Hpre as [Hv _]. congruence.
    + rewrite IH. split.
      * intros (pre & u & post & Heq & Hpre & Hu & Hp).
        exists (t :: pre), u, post. rewrite Heq. auto.
      * intros (pre & u & post & Heq & Hpre & Hu & ->).
        destruct pre as [|v pre]; simpl in Heq; injection Heq as E1 E2.
        -- congruence.
        -- apply Forall_cons in Hpre as [_ Hpre]. eauto 10.
Qed.

Lemma firstMatch_None title tasks :
  firstMatch normalizeText title tasks = None <->
  Forall (fun u => titlesMatch normalizeText title u = false) tasks.
Proof.
  induction tasks as [|t tasks IH]; simpl.
  - split; [constructor|reflexivity].
  - destruct (titlesMatch normalizeText title t) eqn:Hm.
    + split; [discriminate|]. intros H. apply Forall_cons in H as [H _]. congruence.
    + rewrite IH. split; [now constructor|]. intros H. now apply Forall_cons in H as [_ H].
Qed.

Lemma getPrioritySuggestion_firstMatch tasks title description :
  title <> ""%string ->
  getPrioritySuggestion normalizeText tasks title description =
  firstMatch normalizeText title tasks.
Proof.
  intros Ht. unfold getPrioritySuggestion.
  destruct (String.eqb_spec title ""); [contradiction|].
  destruct tasks; reflexivity.
Qed.

(** X11: for a non-empty title, [getPrioritySuggestion] answers with the
    level of the first prioritized task whose normalised title contains
    the normalised title or is contained in it, later matches being
    ignored, and with null exactly when no task matches; an empty title
    always gives null, and the description is never consulted. *)
Theorem priority_suggestion_first_match tasks title description :
  (title = ""%string ->
   getPrioritySuggestion normalizeText tasks title description = None) /\
  (title <> ""%string ->
   (forall p,
      getPrioritySuggestion normalizeText tasks title description = Some p <->
      exists pre task post,
        tasks = pre ++ task :: post /\
        Forall (fun u => titlesMatch normalizeText title u = false) pre /\
        titlesMatch normalizeText title task = true /\
        p = levelOf (orZero (ai_priority_score (tp_task task)))) /\
   (getPrioritySuggestion normalizeText tasks title description = None <->
    Forall (fun u => titlesMatch normalizeText title u = false) tasks)) /\
  (forall description',
     getPrioritySuggestion normalizeText tasks title description' =
     getPrioritySuggestion normalizeText tasks title description).
Proof.
  split; [intros ->; reflexivity|]. split; [|reflexivity].
  intros Ht. rewrite getPrioritySuggestion_firstMatch by exact Ht.
  split; [intros p; apply firstMatch_Some|apply firstMatch_None].
Qed.

(** X12: a title that is not empty but normalises to the empty string
    matches every prioritized task, and a prioritized task whose title
    normalises to the empty string matches every title: in both cases the
    suggestion is the level of the first task of the list. *)
Theorem blank_title_matches_first task rest title description :
  title <> ""%string ->
  normalizeText title = ""%string \/ normalizeText (tp_title task) = ""%string ->
  getPrioritySuggestion normalizeText (task :: rest) title description =
  Some (levelOf (orZero (ai_priority_score (tp_task task)))).
Proof.
  intros Ht Hblank. rewrite getPrioritySuggestion_firstMatch by exact Ht.
  simpl. unfold titlesMatch.
  destruct Hblank as [-> | ->]; rewrite includes_empty, ?orb_true_r; reflexivity.
Qed.

End SuggestionFacts.

(** X13: the level suggested never goes down when the score goes up: from
    low below 40 through medium and high to urgent from 80. *)
Theorem level_monotone (s1 s2 : Q) :
  (s1 <= s2)%Q -> levelRank (levelOf s1) <= levelRank (levelOf s2).
Proof.
  intros Hle. unfold levelOf.
  destruct (Qle_bool 80 s1) eqn:A1, (Qle_bool 60 s1) eqn:B1, (Qle_bool 40 s1) eqn:C1,
    (Qle_bool 80 s2) eqn:A2, (Qle_bool 60 s2) eqn:B2, (Qle_bool 40 s2) eqn:C2;
    simpl; try lia; exfalso;
    repeat match goal with
           | H : Qle_bool _ _ = true |- _ => apply Qle_bool_iff in H
           | H : Qle_bool _ _ = false |- _ =>
               apply not_true_iff_false in H; rewrite Qle_bool_iff in H
           end; try lra.
  all: repeat match goal with H : ~ (_ <= _)%Q |- _ => apply Qnot_le_lt in H end; lra.
Qed.

Lemma priority_suggestion_first_match_witness :
  let tasks := [ {| tp_title := "write report";
                    tp_task := {| pt_id := 1; ai_priority_score := Some (85 # 1);
                                  factors := None |} |};
                 {| tp_title := "report";
                    tp_task := {| pt_id := 2; ai_priority_score := Some (45 # 1);
                                  factors := None |} |} ] in
  ("report" <> "")%string /\
  getPrioritySuggestion plainText tasks "report" "monthly" = Some Scheduling.urgent /\
  getPrioritySuggestion plainText tasks "" "monthly" = None.
Proof.
  intros tasks.
  assert (Hne : ("report" <> "")%string) by discriminate.
  split; [exact Hne|]. split.
  - apply (proj1 (proj2 (priority_suggestion_first_match plainText tasks
                           "report" "monthly")) Hne).
    exists [], {| tp_title := "write report";
                  tp_task := {| pt_id := 1; ai_priority_score := Some (85 # 1);
                                factors := None |} |},
           [ {| tp_title := "report";
                tp_task := {| pt_id := 2; ai_priority_score := Some (45 # 1);
                              factors := None |} |} ].
    split; [reflexivity|]. split; [constructor|]. split; reflexivity.
  - apply (proj1 (priority_suggestion_first_match plainText tasks "" "monthly")).
    reflexivity.
Defined.

Lemma blank_title_matches_first_witness :
  let task := {| tp_title := "";
                 tp_task := {| pt_id := 1; ai_priority_score := Some (65 # 1);
                               factors := None |} |} in
  ("pay rent" <> "")%string /\
  (plainText "pay rent" = "" \/ plainText (tp_title task) = "")%string /\
  getPrioritySuggestion plainText [task] "pay rent" "" = Some Scheduling.high.
Proof.
  intros task.
  assert (Hne : ("pay rent" <> "")%string) by discriminate.
  assert (Hb : (plainText "pay rent" = "" \/ plainText (tp_title task) = "")%string)
    by (right; reflexivity).
  split; [exact Hne|]. split; [exact Hb|].
  exact (blank_title_matches_first plainText task [] "pay rent" "" Hne Hb).
Defined.

Lemma level_monotone_witness :
  (45 # 1 <= 85 # 1)%Q /\
  levelRank (levelOf (45 # 1)) <= levelRank (levelOf (85 # 1)).
Proof.
  assert (H : (45 # 1 <= 85 # 1)%Q) by (unfold Qle; simpl; lia).
  split; [exact H|]. exact (level_monotone (45 # 1) (85 # 1) H).
Defined.

End PrioritizationExtras.

(** ** Further properties of the time block dialog *)
Module TimeBlockActionsFacts.
Import Async TimeBlockModal TimeBlockActions.

(** X14: declining the confirmation of a deletion leaves everything as it
    is and sends nothing.  A confirmed deletion sends one delete request
    for the time block and always ends with loading false; only when that
    request succeeds is the parent notified and the dialog closed, and when
    it fails one error toast is shown. *)
Theorem delete_needs_confirmation props api ui :
  handleDelete props false api ui = (ui, []) /\
  (forall i, timeBlock props = Some i ->
     let r := {| del_token := token props; del_timeBlockId := i |} in
     snd (handleDelete props true api ui) = [r] /\
     loading (fst (handleDelete props true api ui)) = false /\
     requests (fst (handleDelete props true api ui)) = requests ui /\
     (forall u, api r = Resolved u ->
        closeCalls (fst (handleDelete props true api ui)) = S (closeCalls ui) /\
        toasts (fst (handleDelete props true api ui)) =
          toasts ui ++ [successToast "Time block deleted successfully"]) /\
     (forall e, api r = Rejected e ->
        closeCalls (fst (handleDelete props true api ui)) = closeCalls ui /\
        changeNotifications (fst (handleDelete props true api ui)) =
          changeNotifications ui /\
        toasts (fst (handleDelete props true api ui)) =
          toasts ui ++ [errorToast "Failed to delete time block. Please try again."])).
Proof.
  split; [reflexivity|].
  intros i Hi r. unfold handleDelete. rewrite Hi. fold r.
  destruct (api r) as [u|e] eqn:Ha; simpl.
  - split; [reflexivity|]. split; [reflexivity|]. split.
    + unfold afterSaved. destruct (hasOnTimeBlockChange props); reflexivity.
    + split; [|discriminate]. intros _ _.
      unfold afterSaved. destruct (hasOnTimeBlockChange props); split; reflexivity.
  - split; [reflexivity|]. split; [reflexivity|]. split; [reflexivity|].
    split; [discriminate|]. intros _ _. repeat split; reflexivity.
Qed.

Lemma delete_needs_confirmation_witness :
  let props := {| token := "t0k3n"; timeBlock := Some 12; isCreating := false;
                  hasOnTimeBlockChange := true |} in
  let ui := {| loading := false; toasts := []; requests := [];
               changeNotifications := 0; closeCalls := 0 |} in
  let api := fun _ : DeleteRequest => @Rejected unit "Error deleting time block: 500" in
  timeBlock props = Some 12 /\
  snd (handleDelete props true api ui)
    = [ {| del_token := "t0k3n"; del_timeBlockId := 12 |} ] /\
  closeCalls (fst (handleDelete props true api ui)) = closeCalls ui.
Proof.
  intros props ui api.
  split; [reflexivity|].
  destruct (proj2 (delete_needs_confirmation props api ui) 12 eq_refl)
    as (Hsent & _ & _ & _ & Hfail).
  split; [exact Hsent|].
  exact (proj1 (Hfail "Error deleting time block: 500"%string eq_refl)).
Defined.

Lemma requests_afterSaved_send props description r ui :
  requests (afterSaved props description (send r (setLoading true ui)))
  = requests ui ++ [r].
Proof. unfold afterSaved. destruct (hasOnTimeBlockChange props); reflexivity. Qed.

Lemma updateWith_spec props data done failed api ui i :
  timeBlock props = Some i ->
  let r := UpdateTimeBlock (token props) i data in
  let ui' := updateWith props data done failed api ui in
  requests ui' = requests ui ++ [r] /\
  (forall u, api r = Resolved u ->
     loading ui' = true /\ closeCalls ui' = S (closeCalls ui) /\
     toasts ui' = toasts ui ++ [successToast done]) /\
  (forall e, api r = Rejected e ->
     loading ui' = false /\ closeCalls ui' = closeCalls ui /\
     toasts ui' = toasts ui ++ [errorToast failed]).
Proof.
  intros Hi r ui'. subst ui'. unfold updateWith. rewrite Hi. fold r.
  destruct (api r) as [u|e]; simpl.
  - split; [apply requests_afterSaved_send|]. split; [|discriminate].
    intros _ _. unfold afterSaved.
    destruct (hasOnTimeBlockChange props); repeat split; reflexivity.
  - split; [reflexivity|]. split; [discriminate|].
    intros _ _. repeat split; reflexivity.
Qed.

(** X15: [handleStart] and [handleComplete] do not run the checks of
    [handleSubmit]: for every form, with or without a task, whatever its
    two times, they send exactly one update of the time block, carrying the
    form with the status set to in_progress (or completed) and the actual
    start (or end) set to the clock reading.  After a successful update the
    dialog is closed and loading is left true; after a failed one loading
    is false, the dialog stays open and an error toast is shown. *)
Theorem start_and_complete_send_unchecked props formData now api ui i :
  timeBlock props = Some i ->
  let rs := UpdateTimeBlock (token props) i (startedData formData now) in
  let rc := UpdateTimeBlock (token props) i (completedData formData now) in
  let us := handleStart props formData now api ui in
  let uc := handleComplete props formData now api ui in
  (requests us = requests ui ++ [rs] /\
   requests uc = requests ui ++ [rc]) /\
  (start_time (requestData rs) = start_time formData /\
   end_time (requestData rs) = end_time formData /\
   task_id (requestData rs) = task_id formData /\
   status (requestData rs) = "in_progress"%string /\
   actual_start_time (requestData rs) = Some now /\
   status (requestData rc) = "completed"%string /\
   actual_end_time (requestData rc) = Some now) /\
  (forall u, api rs = Resolved u ->
     loading us = true /\ closeCalls us = S (closeCalls ui)) /\
  (forall e, api rs = Rejected e ->
     loading us = false /\ closeCalls us = closeCalls ui /\
     toasts us =
       toasts ui ++ [errorToast "Failed to start time block. Please try again."]) /\
  (forall u, api rc = Resolved u ->
     loading uc = true /\ closeCalls uc = S (closeCalls ui)) /\
  (forall e, api rc = Rejected e ->
     loading uc = false /\ closeCalls uc = closeCalls ui /\
     toasts uc =
       toasts ui ++ [errorToast "Failed to complete time block. Please try again."]).
Proof.
  intros Hi rs rc us uc.
  destruct (updateWith_spec props (startedData formData now) "Time block started"
              "Failed to start time block. Please try again." api ui i Hi)
    as (Hs1 & Hs2 & Hs3).
  destruct (updateWith_spec props (completedData formData now) "Time block completed"
              "Failed to complete time block. Please try again." api ui i Hi)
    as (Hc1 & Hc2 & Hc3).
  split; [split; assumption|].
  split; [repeat split; reflexivity|].
  split; [intros u Hu; destruct (Hs2 u Hu) as (? & ? & _); auto|].
  split; [exact Hs3|].
  split; [intros u Hu; destruct (Hc2 u Hu) as (? & ? & _); auto|exact Hc3].
Qed.

Lemma start_and_complete_send_unchecked_witness :
  let props := {| token := "t0k3n"; timeBlock := Some 12; isCreating := false;
                  hasOnTimeBlockChange := false |} in
  let formData := {| task_id := None; start_time := Some 1736157600000;
                     end_time := Some 1736150400000; status := "scheduled";
                     notes := ""; actual_start_time := None;
                     actual_end_time := None |} in
  let ui := {| loading := false; toasts := []; requests := [];
               changeNotifications := 0; closeCalls := 0 |} in
  let api := fun _ : Request => Resolved tt in
  timeBlock props = Some 12 /\
  TimeBlockModalSpec.invalidForm formData /\
  requests (handleStart props formData 1736154000000 api ui)
    = [UpdateTimeBlock "t0k3n" 12 (startedData formData 1736154000000)] /\
  loading (handleStart props formData 1736154000000 api ui) = true.
Proof.
  intros props formData ui api.
  split; [reflexivity|]. split; [left; reflexivity|].
  destruct (start_and_complete_send_unchecked props formData 1736154000000 api ui
              12 eq_refl) as ((Hs & _) & _ & Hok & _).
  split; [exact Hs|]. exact (proj1 (Hok tt eq_refl)).
Defined.

End TimeBlockActionsFacts.


(** ** Properties of the calendar page *)
Module CalendarPageFacts.
Import JsDate Async Scheduling SchedulingSpec SchedulingSpec2 OptimizerFacts SchedulingExtras.
Import CalendarPage.

(** The create request for [item] succeeds. *)
Definition created (create : ScheduledBlock -> Outcome unit) (item : ScheduleEntry)
    : Prop :=
  exists u, create (blockOf item) = Resolved u.

Lemma createAll_ok create items :
  Forall (created create) items ->
  createAll create items = (Resolved tt, map blockOf items).
Proof.
  induction 1 as [|item items [u Hu] _ IH]; simpl; [reflexivity|].
  now rewrite Hu, IH.
Qed.

Lemma createAll_fail create pre item post e :
  Forall (created create) pre ->
  create (blockOf item) = Rejected e ->
  createAll create (pre ++ item :: post) = (Rejected e, map blockOf (pre ++ [item])).
Proof.
  intros Hpre He. induction Hpre as [|x pre [u Hu] _ IH]; simpl.
  - now rewrite He.
  - now rewrite Hu, IH.
Qed.

(** X16: applying a schedule creates the time blocks one after the other
    in schedule order and stops at the first create request that fails:
    the requests sent are those of the entries up to and including the
    failing one, nothing is sent for the later entries and nothing already
    created is taken back; the dialog then stays as it was and one error
    toast is shown.  When every request succeeds there is one request per
    entry and the dialog is closed.  In every case the schedule is kept
    and the applying flag ends false. *)
Theorem apply_stops_at_first_failure create fetchToday page :
  let r := applyOptimizedSchedule create fetchToday page in
  applyingSchedule (fst r) = false /\
  optimizedSchedule (fst r) = optimizedSchedule page /\
  (Forall (created create) (optimizedSchedule page) ->
   snd r = map blockOf (optimizedSchedule page) /\
   showOptimizeDialog (fst r) = false) /\
  (forall pre item post e,
     optimizedSchedule page = pre ++ item :: post ->
     Forall (created create) pre ->
     create (blockOf item) = Rejected e ->
     snd r = map blockOf (pre ++ [item]) /\
     showOptimizeDialog (fst r) = showOptimizeDialog page /\
     calendarRefreshCounter (fst r) = calendarRefreshCounter page /\
     toasts (fst r) = toasts page ++ [applyFailedToast]).
Proof.
  intros r. subst r. unfold applyOptimizedSchedule.
  split; [destruct (createAll _ _) as [[?|?] ?]; [destruct fetchToday|]; reflexivity|].
  split; [destruct (createAll _ _) as [[?|?] ?]; [destruct fetchToday|]; reflexivity|].
  split.
  - intros Hall. rewrite (createAll_ok _ _ Hall).
    destruct fetchToday; split; reflexivity.
  - intros pre item post e Heq Hpre He.
    rewrite Heq, (createAll_fail _ _ _ _ _ Hpre He). repeat split; reflexivity.
Qed.

Lemma apply_stops_at_first_failure_witness :
  let entry := fun i : Z =>
    {| task_id := i; task_title := "t"; entry_start_time := 1736154000000;
       entry_end_time := 1736157600000; entry_priority := high;
       entry_reasoning := "r" |} in
  let page := {| optimizing := false; showOptimizeDialog := true;
                 optimizedSchedule := [entry 1; entry 2; entry 3];
                 applyingSchedule := false; calendarRefreshCounter := 0;
                 todayTimeBlocks := "[]"; toasts := [] |} in
  let create := fun b : ScheduledBlock =>
    if sb_task_id b =? 2 then @Rejected unit "conflict" else Resolved tt in
  (optimizedSchedule page = [entry 1] ++ entry 2 :: [entry 3] /\
   Forall (created create) [entry 1] /\
   create (blockOf (entry 2)) = Rejected "conflict") /\
  snd (applyOptimizedSchedule create (Resolved "[]") page)
    = [blockOf (entry 1); blockOf (entry 2)] /\
  showOptimizeDialog (fst (applyOptimizedSchedule create (Resolved "[]") page)) = true.
Proof.
  intros entry page create.
  assert (H : optimizedSchedule page = [entry 1] ++ entry 2 :: [entry 3] /\
              Forall (created create) [entry 1] /\
              create (blockOf (entry 2)) = Rejected "conflict").
  { split; [reflexivity|]. split; [|reflexivity].
    constructor; [exists tt; reflexivity|constructor]. }
  split; [exact H|].
  destruct H as (H1 & H2 & H3).
  destruct (proj2 (proj2 (proj2 (apply_stops_at_first_failure create
                                   (Resolved "[]") page)))
              [entry 1] (entry 2) [entry 3] _ H1 H2 H3) as (Hs & Hd & _).
  split; [exact Hs|exact Hd].
Defined.


(** A local schedule that [getOptimizedSchedule] resolves with has one
    entry for each task. *)
Lemma getOptimizedSchedule_local srv token tasks clock schedule :
  run (getOptimizedSchedule srv token tasks) clock = Resolved (LocalSchedule schedule) ->
  Permutation (map task_id schedule) (map id tasks).
Proof.
  rewrite getOptimizedSchedule_eq, remoteSchedule_fst.
  assert (Hloc : match entriesFrom clock 0%nat (sortTasks tasks) with
                 | Resolved s => Resolved (LocalSchedule s)
                 | Rejected e => Rejected e
                 end = Resolved (LocalSchedule schedule) ->
                 Permutation (map task_id schedule) (map id tasks)).
  { destruct (entriesFrom clock 0%nat (sortTasks tasks)) as [s|] eqn:Hs; [|discriminate].
    intros H. injection H as <-. rewrite (entriesFrom_task_ids _ _ _ _ Hs).
    apply Permutation_map, sortTasks_Permutation. }
  destruct (effectiveToken srv token) as [tok|].
  - destruct (fetchOptimize srv tok tasks) as [r|]; [|exact Hloc].
    destruct (ok r); [|exact Hloc].
    destruct (json r); [discriminate|exact Hloc].
  - destruct (storedUserToken srv); exact Hloc.
Qed.

Lemma optimizeSchedule_eq payloadSchedule srv token tasks page clock :
  run (optimizeSchedule payloadSchedule srv token tasks page) clock =
  Resolved
    (setOptimizing false
       (if (length (List.filter toSchedule tasks) =? 0)%nat
        then toast noTasksToast (setOptimizing true page)
        else
          match run (getOptimizedSchedule srv token
                       (map task (List.filter toSchedule tasks))) clock with
          | Resolved result =>
              match scheduleOf payloadSchedule result with
              | Resolved schedule =>
                  setShowOptimizeDialog true
                    (setOptimizedSchedule schedule (setOptimizing true page))
              | Rejected _ => toast optimizeFailedToast (setOptimizing true page)
              end
          | Rejected _ => toast optimizeFailedToast (setOptimizing true page)
          end)).
Proof.
  unfold run, optimizeSchedule, bind at 1, tryCatch.
  destruct (length (List.filter toSchedule tasks) =? 0)%nat; [reflexivity|].
  unfold bind at 1.
  destruct (getOptimizedSchedule srv token _ clock 0%nat) as [[r|e] n];
    cbn [fst]; [|reflexivity].
  unfold bind, await, ret.
  destruct (scheduleOf payloadSchedule r); reflexivity.
Qed.

(** X17: [optimizeSchedule] always resolves with the optimizing flag
    false.  When no task is pending or in progress without a scheduled
    start, it only shows the notice that there is nothing to schedule: no
    schedule is computed and the dialog is not opened.  Otherwise
    [getOptimizedSchedule] is asked for these tasks alone.  When it rejects
    (the local fallback threw) or resolves with the payload [null], the
    error toast is shown and the dialog and the schedule stay as they were.
    When it resolves with another payload or with the local schedule, no
    toast is shown and the dialog is opened on that schedule; the local
    schedule then has one entry for each such task and no entry for any
    other task. *)
Theorem optimize_only_unscheduled_open_tasks payloadSchedule srv token tasks page clock :
  exists page',
    run (optimizeSchedule payloadSchedule srv token tasks page) clock
      = Resolved page' /\
    optimizing page' = false /\
    (List.filter toSchedule tasks = [] ->
     toasts page' = toasts page ++ [noTasksToast] /\
     optimizedSchedule page' = optimizedSchedule page /\
     showOptimizeDialog page' = showOptimizeDialog page) /\
    (List.filter toSchedule tasks <> [] ->
     match run (getOptimizedSchedule srv token
                  (map task (List.filter toSchedule tasks))) clock with
     | Rejected _ =>
         toasts page' = toasts page ++ [optimizeFailedToast] /\
         optimizedSchedule page' = optimizedSchedule page /\
         showOptimizeDialog page' = showOptimizeDialog page
     | Resolved (RemoteSchedule data) =>
         if isNull data then
           toasts page' = toasts page ++ [optimizeFailedToast] /\
           optimizedSchedule page' = optimizedSchedule page /\
           showOptimizeDialog page' = showOptimizeDialog page
         else
           toasts page' = toasts page /\
           optimizedSchedule page' = payloadSchedule data /\
           showOptimizeDialog page' = true
     | Resolved (LocalSchedule schedule) =>
         toasts page' = toasts page /\
         optimizedSchedule page' = schedule /\
         showOptimizeDialog page' = true /\
         length schedule = length (List.filter toSchedule tasks) /\
         Forall (fun entry =>
                   exists t, In t tasks /\ toSchedule t = true /\
                             task_id entry = id (task t))
                schedule
     end).
Proof.
  rewrite optimizeSchedule_eq. eexists. split; [reflexivity|].
  split; [reflexivity|].
  destruct (List.filter toSchedule tasks) as [|t0 l0] eqn:Hf.
  - split; [intros _; repeat split; reflexivity|]. intros H. contradiction.
  - split; [discriminate|]. intros _. cbn [length Nat.eqb].
    destruct (run (getOptimizedSchedule srv token (map task (t0 :: l0))) clock)
      as [[data|schedule]|e] eqn:Hrun.
    + unfold scheduleOf. destruct (isNull data); repeat split; reflexivity.
    + cbn [scheduleOf].
      split; [reflexivity|]. split; [reflexivity|]. split; [reflexivity|].
      pose proof (getOptimizedSchedule_local _ _ _ _ _ Hrun) as Hp.
      split.
      * apply Permutation_length in Hp. now rewrite !length_map in Hp.
      * apply List.Forall_forall. intros entry Hin.
        apply (in_map task_id) in Hin.
        apply (Permutation_in _ Hp) in Hin.
        rewrite map_map in Hin. apply in_map_iff in Hin as (t & <- & Hin).
        rewrite <- Hf in Hin. apply filter_In in Hin as [Hin Hts].
        exists t. auto.
    + repeat split; reflexivity.
Qed.

Lemma optimize_only_unscheduled_open_tasks_witness :
  let open := mkPageTask (mkTask 1 "a" low None Absent 3) pending None in
  let done := mkPageTask (mkTask 2 "b" high None Absent 2) completed None in
  let planned := mkPageTask (mkTask 3 "c" high None Absent 1) in_progress
                   (Some 1736154000000) in
  let tasks := [open; done; planned] in
  let page := {| optimizing := false; showOptimizeDialog := false;
                 optimizedSchedule := []; applyingSchedule := false;
                 calendarRefreshCounter := 0; todayTimeBlocks := "[]";
                 toasts := [] |} in
  let clock := fun _ : nat => at_ monday 10 0 in
  let nullAnswer :=
    {| fetchCalendarEvents := fun _ _ _ => Resolved "[]";
       fetchTimeBlocks := fun _ _ _ => Resolved "[]";
       fetchSuggestions := fun _ _ => Rejected "Failed to fetch";
       fetchOptimize := fun _ _ => Resolved (mkResponse true 200 (Resolved "null"));
       storedUserToken := Resolved None;
       storedAuthToken := None |} in
  List.filter toSchedule tasks <> [] /\
  (exists page',
     run (optimizeSchedule (fun _ => []) offline (Some "t0k3n") tasks page) clock
       = Resolved page' /\
     showOptimizeDialog page' = true /\
     map task_id (optimizedSchedule page') = [1]) /\
  (exists page',
     run (optimizeSchedule (fun _ => []) nullAnswer (Some "t0k3n") tasks page) clock
       = Resolved page' /\
     showOptimizeDialog page' = false /\
     toasts page' = [optimizeFailedToast]).
Proof.
  intros open done planned tasks page clock nullAnswer.
  assert (Hne : List.filter toSchedule tasks <> []) by discriminate.
  split; [exact Hne|]. split.
  - destruct (optimize_only_unscheduled_open_tasks (fun _ => []) offline
                (Some "t0k3n") tasks page clock)
      as (page' & Hrun & _ & _ & Hsome).
    specialize (Hsome Hne).
    assert (Hr : exists e,
               run (getOptimizedSchedule offline (Some "t0k3n")
                      (map task (List.filter toSchedule tasks))) clock
               = Resolved (LocalSchedule [e]) /\ task_id e = 1)
      by (eexists; split; vm_compute; reflexivity).
    destruct Hr as (e & Hr & He). rewrite Hr in Hsome.
    destruct Hsome as (_ & Hsched & Hdlg & _).
    exists page'. split; [exact Hrun|]. split; [exact Hdlg|].
    rewrite Hsched. simpl. now rewrite He.
  - destruct (optimize_only_unscheduled_open_tasks (fun _ => []) nullAnswer
                (Some "t0k3n") tasks page clock)
      as (page' & Hrun & _ & _ & Hsome).
    specialize (Hsome Hne).
    assert (Hr : run (getOptimizedSchedule nullAnswer (Some "t0k3n")
                        (map task (List.filter toSchedule tasks))) clock
                 = Resolved (RemoteSchedule "null")) by (vm_compute; reflexivity).
    rewrite Hr in Hsome. cbn in Hsome. destruct Hsome as (Ht & _ & Hdlg).
    exists page'. split; [exact Hrun|]. split; [exact Hdlg|exact Ht].
Defined.

End CalendarPageFacts.

(** ** Deadlines and the order of the tasks, continued *)
Module SchedulingExtras2.
Import JsNumber JsDate JsDateFacts Async Scheduling SchedulingSpec SchedulingSpec3.
Import SchedulingFacts OptimizerFacts.

(** X18: a deadline whose day does not end before the start derived from
    the priority plays no part in the local suggestion: the result is the
    one of the same task without deadline. *)
Theorem later_deadline_is_ignored now taskData d startDate endDate :
  deadline taskData = Some d ->
  priorityStart now taskData <= endOfDay d ->
  generateLocalSchedulingSuggestions now taskData startDate endDate =
  generateLocalSchedulingSuggestions now (withDeadline None taskData) startDate endDate.
Proof.
  intros Hd Hle. unfold generateLocalSchedulingSuggestions.
  assert (Hadj : beforeDeadline taskData
                   (startByPriority (DateObject.ofTimeValue now) taskData) =
                 startByPriority (DateObject.ofTimeValue now) taskData).
  { rewrite startByPriority_eq. destruct (TimeClip now) as [t|] eqn:Hnow;
      [|apply beforeDeadline_None].
    apply TimeClip_Some in Hnow as [-> _].
    destruct (TimeClip (priorityStart now taskData)) as [p|] eqn:Hp;
      [|apply beforeDeadline_None].
    apply TimeClip_Some in Hp as [-> _].
    unfold beforeDeadline. rewrite Hd, deadline_eq.
    destruct (TimeClip d) as [t|] eqn:Ht; [|reflexivity].
    apply TimeClip_Some in Ht as [-> _].
    destruct (TimeClip (endOfDay d)) as [dl|] eqn:Hdl; [|reflexivity].
    apply TimeClip_Some in Hdl as [-> _].
    change (DateObject.ltb (Some (endOfDay d)) (Some (priorityStart now taskData)))
      with (endOfDay d <? priorityStart now taskData).
    destruct (Z.ltb_spec (endOfDay d) (priorityStart now taskData)); [lia|].
    reflexivity. }
  rewrite Hadj. reflexivity.
Qed.

Lemma later_deadline_is_ignored_witness :
  let d := at_ (monday + 4) 12 0 in
  let taskData := mkTask 1 "report" medium (Some d) (Number 90) 0 in
  let now := at_ monday 10 0 in
  (deadline taskData = Some d /\ priorityStart now taskData <= endOfDay d) /\
  generateLocalSchedulingSuggestions now taskData None None =
  generateLocalSchedulingSuggestions now (withDeadline None taskData) None None.
Proof.
  intros d taskData now.
  assert (H : deadline taskData = Some d /\ priorityStart now taskData <= endOfDay d)
    by (split; [reflexivity|vm_compute; discriminate]).
  split; [exact H|].
  exact (later_deadline_is_ignored now taskData d None None (proj1 H) (proj2 H)).
Defined.



End SchedulingExtras2.


(** ** The default form of the time block dialog *)
Module TimeBlockFormFacts.
Import Async TimeBlockModal TimeBlockModalSpec TimeBlockForm.

(** X20: the form a new dialog starts with, once a task is selected, passes
    the checks of [handleSubmit] as long as the clock did not go back
    between its two readings: one create request carrying that form is
    sent.  Moving the end to the start or before it makes the same form
    refused. *)
Theorem default_form_is_accepted props now1 now2 i api ui :
  now1 <= now2 -> i <> 0 -> isCreating props = true ->
  let formData := selectTask i (initialFormData now1 now2) in
  requests (handleSubmit props formData api ui) =
    requests ui ++ [CreateTimeBlock (token props) formData] /\
  (forall e, e <= now1 ->
     requests (handleSubmit props (setEndTime (Some e) formData) api ui)
     = requests ui).
Proof.
  intros Hclock Hi Hcreating formData. split.
  - unfold handleSubmit.
    assert (Hsel : noTaskSelected formData = false).
    { unfold noTaskSelected. simpl. now apply Z.eqb_neq. }
    rewrite Hsel.
    assert (Hge : jsGe (start_time formData) (end_time formData) = false).
    { simpl. destruct (Z.geb_spec now1 (now2 + 60 * 60 * 1000)); [lia|reflexivity]. }
    rewrite Hge, Hcreating.
    destruct (api _);
      [unfold afterSaved; destruct (hasOnTimeBlockChange props)|]; reflexivity.
  - intros e He. unfold handleSubmit.
    assert (Hsel : noTaskSelected (setEndTime (Some e) formData) = false).
    { unfold noTaskSelected. simpl. now apply Z.eqb_neq. }
    rewrite Hsel.
    assert (Hge : jsGe (start_time (setEndTime (Some e) formData))
                    (end_time (setEndTime (Some e) formData)) = true).
    { simpl. destruct (Z.geb_spec now1 e); [reflexivity|lia]. }
    rewrite Hge. reflexivity.
Qed.

Lemma default_form_is_accepted_witness :
  let props := {| token := "t0k3n"; timeBlock := None; isCreating := true;
                  hasOnTimeBlockChange := true |} in
  let ui := {| loading := false; toasts := []; requests := [];
               changeNotifications := 0; closeCalls := 0 |} in
  let formData := selectTask 4 (initialFormData 1736154000000 1736154000001) in
  (1736154000000 <= 1736154000001 /\ 4 <> 0 /\ isCreating props = true) /\
  requests (handleSubmit props formData (fun _ => Resolved tt) ui)
    = requests ui ++ [CreateTimeBlock (token props) formData].
Proof.
  intros props ui formData.
  assert (H : 1736154000000 <= 1736154000001 /\ 4 <> 0 /\ isCreating props = true)
    by (split; [lia|split; [discriminate|reflexivity]]).
  split; [exact H|].
  destruct H as (H1 & H2 & H3).
  exact (proj1 (default_form_is_accepted props 1736154000000 1736154000001 4
                  (fun _ => Resolved tt) ui H1 H2 H3)).
Defined.

End TimeBlockFormFacts.
